(** * ORB-SLAM point-cloud utilities: PLY conversion and viewing

    A shallow embedding of [point_cloud.py]:

    - [save_pointcloud_from_ORB_SLAM]  (map points, CSV  -> ASCII PLY)
    - [save_trajectory_from_ORB_SLAM] (KITTI-style poses -> coloured PLY)
    - [plot_3d_point_cloud]           (ASCII PLY -> x, y, z columns)

    Python [str] values are lists of characters, Python exceptions are
    an error type threaded through a small error monad, [float] and
    NumPy [float64]/[float32] scalars are IEEE-754 values
    ([spec_float], binary64 and binary32 roundings), NumPy arrays are
    shape-tagged lists, and files live in a finite map from paths to
    contents. *)

From Stdlib Require Import ZArith NArith List Ascii String Bool Lia.
From Stdlib Require Import DecimalString DecimalN.
From Stdlib Require Import Floats.SpecFloat.
From stdpp Require Import base option list gmap strings.

Local Open Scope Z_scope.
Local Open Scope list_scope.

(** ** Exceptions and the error monad *)

Inductive exn : Type :=
| IndexError
| ValueError
| TypeError
| OverflowError
| FileNotFoundError.

Inductive result (A : Type) : Type :=
| Ok (a : A)
| Raise (e : exn).
Arguments Ok {A} a.
Arguments Raise {A} e.

Definition bind {A B : Type} (m : result A) (k : A -> result B) : result B :=
  match m with
  | Ok a => k a
  | Raise e => Raise e
  end.

Notation "'do' x <- m ; k" := (bind m (fun x => k))
  (at level 10, x pattern, m at level 100, k at level 200).

Definition raises {A : Type} (m : result A) : Prop :=
  match m with
  | Ok _ => False
  | Raise _ => True
  end.

(** The exceptions of a failed parse: an index out of range or a
    value that cannot be converted. *)
Definition parse_failure {A : Type} (m : result A) : Prop :=
  m = Raise IndexError \/ m = Raise ValueError.

(** ** Text *)

(** A Python [str]: a sequence of code points (below 256 here). *)
Definition str : Type := list ascii.

Definition lit (s : string) : str := list_ascii_of_string s.

Definition NL : ascii := ascii_of_nat 10.
Definition CR : ascii := ascii_of_nat 13.

Definition code (c : ascii) : N := N_of_ascii c.

(** [str.isspace] on one character, as used by [str.strip()] and
    [str.split()] without arguments. *)
Definition is_space (c : ascii) : bool :=
  let n := code c in
  ((9 <=? n) && (n <=? 13))%N || ((28 <=? n) && (n <=? 32))%N
  || (n =? 133)%N || (n =? 160)%N.

(** The whitespace [float] strips from the ends of its argument: the
    ASCII whitespace, and the non-ASCII spaces, which it first turns
    into blanks.  (The separators U+001C to U+001F are not among
    them.) *)
Definition is_float_space (c : ascii) : bool :=
  let n := code c in
  ((9 <=? n) && (n <=? 13))%N || (n =? 32)%N || (n =? 133)%N || (n =? 160)%N.

Definition is_digit (c : ascii) : bool :=
  let n := code c in ((48 <=? n) && (n <=? 57))%N.

Fixpoint lstrip_by (p : ascii -> bool) (s : str) : str :=
  match s with
  | c :: t => if p c then lstrip_by p t else s
  | [] => []
  end.

Definition rstrip_by (p : ascii -> bool) (s : str) : str :=
  rev (lstrip_by p (rev s)).

Definition strip_by (p : ascii -> bool) (s : str) : str :=
  rstrip_by p (lstrip_by p s).

(** [s.strip()] *)
Definition strip (s : str) : str := strip_by is_space s.

Fixpoint starts_with (p s : str) : bool :=
  match p, s with
  | [], _ => true
  | a :: p', b :: s' => Ascii.eqb a b && starts_with p' s'
  | _ :: _, [] => false
  end.

(** [s.split(sep)] for a non-empty separator.  The scan returns the
    field under construction and the fields completed to its right;
    [skip] counts the characters of a separator still to be passed. *)
Fixpoint split_scan (sep : str) (skip : nat) (s : str) : str * list str :=
  match s with
  | [] => ([], [])
  | c :: t =>
      match skip with
      | S k => split_scan sep k t
      | O =>
          if starts_with sep s then
            let '(w, ws) := split_scan sep (length sep - 1) t in ([], w :: ws)
          else
            let '(w, ws) := split_scan sep 0 t in (c :: w, ws)
      end
  end.

Definition split (sep : str) (s : str) : list str :=
  let '(w, ws) := split_scan sep 0 s in w :: ws.

(** [s.split()]: maximal runs of non-whitespace characters. *)
Fixpoint words_scan (s : str) : str * list str :=
  match s with
  | [] => ([], [])
  | c :: t =>
      let '(w, ws) := words_scan t in
      if is_space c then ([], match w with [] => ws | _ => w :: ws end)
      else (c :: w, ws)
  end.

Definition words (s : str) : list str :=
  let '(w, ws) := words_scan s in
  match w with [] => ws | _ => w :: ws end.

(** [sep.join(parts)] *)
Fixpoint join (sep : str) (parts : list str) : str :=
  match parts with
  | [] => []
  | [p] => p
  | p :: rest => p ++ sep ++ join sep rest
  end.

(** Text-mode reading translates ["\r\n"] and ["\r"] to ["\n"]. *)
Fixpoint universal_newlines (s : str) : str :=
  match s with
  | [] => []
  | c :: t =>
      if Ascii.eqb c CR then
        match t with
        | c' :: t' =>
            if Ascii.eqb c' NL then NL :: universal_newlines t'
            else NL :: universal_newlines t
        | [] => [NL]
        end
      else c :: universal_newlines t
  end.

(** Lines of a text, each keeping its terminating newline. *)
Fixpoint keepends (s : str) : list str :=
  match s with
  | [] => []
  | c :: t =>
      if Ascii.eqb c NL then [c] :: keepends t
      else match keepends t with
           | [] => [[c]]
           | l :: ls => (c :: l) :: ls
           end
  end.

(** [file.readlines()] on a file opened with mode ["r"]. *)
Definition readlines (content : str) : list str :=
  keepends (universal_newlines content).

(** [seq[i]] for a non-negative index. *)
Definition index {A : Type} (l : list A) (i : nat) : result A :=
  match l !! i with
  | Some a => Ok a
  | None => Raise IndexError
  end.

(** ** Integers in decimal *)

(** The decimal numeral of a natural number. *)
Definition dec (n : N) : str :=
  list_ascii_of_string (NilZero.string_of_uint (N.to_uint n)).

(** The number a decimal numeral denotes. *)
Definition undec (s : str) : option N :=
  match NilZero.uint_of_string (string_of_list_ascii s) with
  | Some d => Some (N.of_uint d)
  | None => None
  end.

(** ['%d' % z] *)
Definition dec_Z (z : Z) : str :=
  match z with
  | Zneg p => lit "-" ++ dec (Npos p)
  | _ => dec (Z.to_N z)
  end.

(** Left padding with zeros up to [width] characters. *)
Definition pad_zeros (width : nat) (s : str) : str :=
  repeat (ascii_of_nat 48) (width - length s) ++ s.

(** [a == b] *)
Fixpoint str_eqb (a b : str) : bool :=
  match a, b with
  | [], [] => true
  | x :: a', y :: b' => Ascii.eqb x y && str_eqb a' b'
  | _, _ => false
  end.

(** [c.lower()] on the ASCII letters. *)
Definition lower (c : ascii) : ascii :=
  let n := code c in
  if ((65 <=? n) && (n <=? 90))%N then ascii_of_N (n + 32) else c.

(** ** Floating point

    A Python [float] and a NumPy [float64] are binary64 values, a NumPy
    [float32] is a binary32 value; both are [spec_float]s, rounded by
    the IEEE-754 operations of [SpecFloat] at the format's precision. *)

Definition float : Type := spec_float.

Definition nan : float := S754_nan.

Definition float_of_Z (z : Z) : float := binary_normalize 53 1024 z 0 false.

(** The binary64 value nearest to [(-1)^neg * m * 10^e10]. *)
Definition float_of_decimal (neg : bool) (m : N) (e10 : Z) : float :=
  match m with
  | N0 => S754_zero neg
  | Npos p =>
      match e10 with
      | Zneg k =>
          SFdiv 53 1024 (S754_finite neg p 0) (S754_finite false (Pos.pow 10 k) 0)
      | _ => binary_normalize 53 1024 (cond_Zopp neg (Zpos p * 10 ^ e10)) 0 neg
      end
  end.

(** [numpy.float32(x)] *)
Definition float32 (x : float) : float :=
  match x with
  | S754_finite s m e => binary_round 24 128 s m e
  | _ => x
  end.

(** *** [float(s)] *)

(** Underscores may only stand between two digits. *)
Fixpoint remove_underscores (prev : ascii) (s : str) : option str :=
  match s with
  | [] => if Ascii.eqb prev "_" then None else Some []
  | c :: t =>
      if Ascii.eqb c "_" then
        if is_digit prev then remove_underscores c t else None
      else if Ascii.eqb prev "_" && negb (is_digit c) then None
      else option_map (cons c) (remove_underscores c t)
  end.

Definition split_sign (s : str) : bool * str :=
  match s with
  | c :: t =>
      if Ascii.eqb c "-" then (true, t)
      else if Ascii.eqb c "+" then (false, t)
      else (false, s)
  | [] => (false, [])
  end.

Fixpoint span_digits (s : str) : str * str :=
  match s with
  | c :: t =>
      if is_digit c then let '(d, r) := span_digits t in (c :: d, r)
      else ([], s)
  | [] => ([], [])
  end.

Definition digits_value (ds : str) : N :=
  fold_left (fun acc c => (acc * 10 + (code c - 48))%N) ds 0%N.

Definition parse_exponent (s : str) : option Z :=
  match s with
  | [] => Some 0
  | c :: t =>
      if Ascii.eqb (lower c) "e" then
        let '(neg, t') := split_sign t in
        let '(ds, r) := span_digits t' in
        match ds, r with
        | _ :: _, [] => Some (cond_Zopp neg (Z.of_N (digits_value ds)))
        | _, _ => None
        end
      else None
  end.

(** Mantissa digits and decimal exponent of an unsigned literal. *)
Definition parse_decimal (s : str) : option (N * Z) :=
  let '(ip, r1) := span_digits s in
  let '(fp, r2) :=
    match r1 with
    | c :: t => if Ascii.eqb c "." then span_digits t else ([], r1)
    | [] => ([], [])
    end in
  match ip ++ fp with
  | [] => None
  | ds =>
      match parse_exponent r2 with
      | Some e => Some (digits_value ds, e - Z.of_nat (length fp))
      | None => None
      end
  end.

Definition parse_inf_or_nan (neg : bool) (s : str) : option float :=
  let l := map lower s in
  if str_eqb l (lit "inf") || str_eqb l (lit "infinity") then Some (S754_infinity neg)
  else if str_eqb l (lit "nan") then Some S754_nan
  else None.

(** The value of a literal without whitespace or underscores: an
    optional sign, then a decimal numeral or [inf], [infinity] or
    [nan]. *)
Definition parse_literal (t : str) : option float :=
  let '(neg, body) := split_sign t in
  match parse_decimal body with
  | Some (m, e) => Some (float_of_decimal neg m e)
  | None => parse_inf_or_nan neg body
  end.

(** The value [float(s)] denotes, if [s] is a float literal:
    whitespace is stripped from both ends, then the underscores
    between digits are removed. *)
Definition parse_float (s : str) : option float :=
  match remove_underscores zero (strip_by is_float_space s) with
  | None => None
  | Some t => parse_literal t
  end.

(** [float(s)] *)
Definition python_float (s : str) : result float :=
  match parse_float s with
  | Some x => Ok x
  | None => Raise ValueError
  end.

(** *** [%f] and [%d] *)

Definition sign_text (neg : bool) : str := if neg then lit "-" else [].

Definition round_half_even (n d : Z) : Z :=
  let q := n / d in
  match (2 * (n mod d) ?= d) with
  | Lt => q
  | Gt => q + 1
  | Eq => if Z.even q then q else q + 1
  end.

(** [|x| * 10^6] rounded to an integer, for [x = m * 2^e]. *)
Definition millionths (m : positive) (e : Z) : Z :=
  match e with
  | Zneg p => round_half_even (Zpos m * 10 ^ 6) (2 ^ Zpos p)
  | _ => Zpos m * 2 ^ e * 10 ^ 6
  end.

(** ['%f' % x] *)
Definition fmt_f (x : float) : str :=
  match x with
  | S754_nan => lit "nan"
  | S754_infinity s => sign_text s ++ lit "inf"
  | S754_zero s => sign_text s ++ lit "0.000000"
  | S754_finite s m e =>
      let u := millionths m e in
      sign_text s ++ dec (Z.to_N (u / 10 ^ 6)) ++ lit "."
        ++ pad_zeros 6 (dec (Z.to_N (u mod 10 ^ 6)))
  end.

(** [int(x)], truncating toward zero. *)
Definition int_of_float (x : float) : result Z :=
  match x with
  | S754_nan => Raise ValueError
  | S754_infinity _ => Raise OverflowError
  | S754_zero _ => Ok 0
  | S754_finite s m e =>
      Ok (cond_Zopp s (match e with
                       | Zneg p => Zpos m / 2 ^ Zpos p
                       | _ => Zpos m * 2 ^ e
                       end))
  end.

(** The values a format is applied to. *)
Inductive pyval : Type :=
| VInt (z : Z)
| VFloat (x : float).

Definition conv_d (v : pyval) : result str :=
  match v with
  | VInt z => Ok (dec_Z z)
  | VFloat x => do z <- int_of_float x; Ok (dec_Z z)
  end.

Definition conv_f (v : pyval) : result str :=
  match v with
  | VFloat x => Ok (fmt_f x)
  | VInt z =>
      match float_of_Z z with
      | S754_infinity _ => Raise OverflowError
      | x => Ok (fmt_f x)
      end
  end.

(** The right operand of [%]: a tuple supplies one argument per
    element, any other value is the single argument. *)
Inductive operand : Type :=
| Single (v : pyval)
| Tuple (vs : list pyval).

Definition arguments (rhs : operand) : list pyval :=
  match rhs with
  | Single v => [v]
  | Tuple vs => vs
  end.

(** [fmt % args] for the conversions the program uses ([%d], [%f])
    and [%%]. *)
Fixpoint format_scan (fmt : str) (args : list pyval) : result str :=
  match fmt with
  | [] =>
      match args with
      | [] => Ok []
      | _ :: _ => Raise TypeError
      end
  | c :: t =>
      if Ascii.eqb c "%" then
        match t with
        | k :: t' =>
            if Ascii.eqb k "%" then
              do r <- format_scan t' args; Ok (k :: r)
            else
              match args with
              | [] => Raise TypeError
              | a :: args' =>
                  do s <- (if Ascii.eqb k "d" then conv_d a
                           else if Ascii.eqb k "f" then conv_f a
                           else Raise ValueError);
                  do r <- format_scan t' args';
                  Ok (s ++ r)
              end
        | [] => Raise ValueError
        end
      else do r <- format_scan t args; Ok (c :: r)
  end.

Definition percent (fmt : str) (rhs : operand) : result str :=
  format_scan fmt (arguments rhs).

(** ** NumPy arrays *)

(** Arrays of dimension 0, 1 and 2; every row of an [Array2 k rows]
    has [k] entries. *)
Inductive ndarray : Type :=
| Array0 (x : float)
| Array1 (xs : list float)
| Array2 (ncol : nat) (rows : list (list float)).

(** [a.shape] *)
Definition shape (a : ndarray) : list nat :=
  match a with
  | Array0 _ => []
  | Array1 xs => [length xs]
  | Array2 k rows => [length rows; k]
  end.

(** [numpy.squeeze(a)]: axes of length one are dropped. *)
Definition squeeze (a : ndarray) : ndarray :=
  match a with
  | Array0 _ => a
  | Array1 xs =>
      match xs with
      | [x] => Array0 x
      | _ => a
      end
  | Array2 k rows =>
      match rows, k with
      | [r], 1%nat => Array0 (nth 0 r nan)
      | [r], _ => Array1 r
      | _, 1%nat => Array1 (map (fun r => nth 0 r nan) rows)
      | _, _ => a
      end
  end.

(** [a[:, j]] *)
Definition column (a : ndarray) (j : nat) : result ndarray :=
  match a with
  | Array2 k rows =>
      if (j <? k)%nat then Ok (Array1 (map (fun r => nth j r nan) rows))
      else Raise IndexError
  | _ => Raise IndexError
  end.

Definition map_array (f : float -> float) (a : ndarray) : ndarray :=
  match a with
  | Array0 x => Array0 (f x)
  | Array1 xs => Array1 (map f xs)
  | Array2 k rows => Array2 k (map (map f) rows)
  end.

(** [numpy.ones_like(a)] *)
Definition ones_like (a : ndarray) : ndarray :=
  map_array (fun _ => float_of_Z 1) a.

(** [a * n] for an integer [n] *)
Definition times (a : ndarray) (n : Z) : ndarray :=
  map_array (fun v => SFmul 53 1024 v (float_of_Z n)) a.

(** The two-dimensional block an argument of [column_stack] stands
    for: scalars and vectors become columns. *)
Definition as_block (a : ndarray) : nat * list (list float) :=
  match a with
  | Array0 x => (1%nat, [[x]])
  | Array1 xs => (1%nat, map (fun x => [x]) xs)
  | Array2 k rows => (k, rows)
  end.

Definition hstack (n : nat) (blocks : list (list (list float))) : list (list float) :=
  map (fun i => concat (map (fun rows => nth i rows []) blocks)) (seq 0 n).

(** [numpy.column_stack(tup)] *)
Definition column_stack (tup : list ndarray) : result ndarray :=
  match map as_block tup with
  | [] => Raise ValueError
  | (k, rows) :: rest =>
      let n := length rows in
      if forallb (fun b => (length (snd b) =? n)%nat) rest then
        Ok (Array2 (fold_right Nat.add 0%nat (map fst ((k, rows) :: rest)))
                   (hstack n (map snd ((k, rows) :: rest))))
      else Raise ValueError
  end.

Fixpoint traverse {A B : Type} (f : A -> result B) (l : list A) : result (list B) :=
  match l with
  | [] => Ok []
  | a :: t => do b <- f a; do bs <- traverse f t; Ok (b :: bs)
  end.

Definition is_nil {A : Type} (l : list A) : bool :=
  match l with
  | [] => true
  | _ :: _ => false
  end.

Definition same_length {A : Type} (n : nat) (rows : list (list A)) : bool :=
  forallb (fun r => (length r =? n)%nat) rows.

(** The text of a line before the comment marker: [line.split("#")[0]]. *)
Definition before_comment (line : str) : str :=
  hd [] (split (lit "#") line).

(** *** [numpy.genfromtxt] *)

Definition strip_chars (chars : str) (s : str) : str :=
  strip_by (fun c => existsb (Ascii.eqb c) chars) s.

(** The fields of one line: comments are chopped off, blanks and line
    ends stripped, and the rest split at the delimiter. *)
Definition split_line (delimiter : str) (line : str) : list str :=
  match strip_chars [" "%char; CR; NL] (before_comment line) with
  | [] => []
  | l => split delimiter l
  end.

(** A field converted with [float], or [nan] when [float] raises
    [ValueError] (the only exception it raises on a [str]). *)
Definition loose_float (field : str) : float :=
  match parse_float field with
  | Some x => x
  | None => nan
  end.

(** The non-empty rows of fields after [skip_header] lines. *)
Definition data_rows (content delimiter : str) (skip_header : nat) : list (list str) :=
  List.filter (fun r => negb (is_nil r))
    (map (split_line delimiter) (drop skip_header (readlines content))).

(** [numpy.genfromtxt(file, delimiter=..., skip_header=...)] with the
    default [dtype=float]: rows whose number of fields differs from
    the first row's raise [ValueError], and the result is squeezed. *)
Definition genfromtxt (content delimiter : str) (skip_header : nat) : result ndarray :=
  match data_rows content delimiter skip_header with
  | [] => Ok (Array1 [])
  | first :: rest =>
      let nbcols := length first in
      if same_length nbcols rest then
        Ok (squeeze (Array2 nbcols (map (map loose_float) (first :: rest))))
      else Raise ValueError
  end.

(** *** [numpy.loadtxt] *)

(** The double NumPy's text reader finds in a field: whitespace is
    skipped at both ends and the whole rest must be a literal;
    underscores are not accepted. *)
Definition numpy_float (tok : str) : option float :=
  parse_literal (strip_by is_space tok).

(** A field converted for [dtype=numpy.float32]. *)
Definition to_float32 (tok : str) : result float :=
  match numpy_float tok with
  | Some x => Ok (float32 x)
  | None => Raise ValueError
  end.

(** [numpy.loadtxt(lines, dtype=numpy.float32)]: comments are
    removed, blank lines skipped, fields are separated by whitespace
    and converted to doubles, then narrowed to [float32]; rows
    of differing lengths raise [ValueError]; the result is squeezed.
    [field_rows] are the non-blank rows of fields. *)
Definition field_rows (lines : list str) : list (list str) :=
  List.filter (fun r => negb (is_nil r))
    (map (fun l => words (before_comment l)) lines).

Definition loadtxt (lines : list str) : result ndarray :=
  match field_rows lines with
  | [] => Ok (Array1 [])
  | first :: rest =>
      let ncol := length first in
      do vals <- traverse (traverse to_float32) (first :: rest);
      if same_length ncol rest then Ok (squeeze (Array2 ncol vals))
      else Raise ValueError
  end.

(** *** [numpy.savetxt] *)

Definition count_percent (fmt : str) : nat :=
  length (List.filter (Ascii.eqb "%") fmt).

(** The text [numpy.savetxt(file, X, fmt=fmt, header=header,
    comments='')] writes: the header and a newline, then each row
    formatted with [fmt] and a newline.  A single [%] in [fmt] is
    repeated for every column, joined by blanks. *)
Definition savetxt (X : ndarray) (fmt header : str) : result str :=
  match X with
  | Array0 _ => Raise ValueError
  | _ =>
      let '(ncol, rows) := as_block X in
      let n := count_percent fmt in
      do format <- (if (n =? 1)%nat then Ok (join (lit " ") (repeat fmt ncol))
                    else if (n =? ncol)%nat then Ok fmt
                    else Raise ValueError);
      do body <- traverse (fun row => do v <- percent format (Tuple (map VFloat row));
                                      Ok (v ++ [NL])) rows;
      Ok (header ++ [NL] ++ concat body)
  end.

(** ** The program *)

Definition text_lines (ls : list string) : str := join [NL] (map lit ls).

(** *** [save_pointcloud_from_ORB_SLAM] *)

Definition pointcloud_header : str :=
  text_lines
    [ "ply"; "format ascii 1.0"; "element vertex %d";
      "property float x"; "property float y"; "property float z";
      "end_header" ]%string.

(** From the text of the input file to the text of the output file. *)
Definition pointcloud_ply (content : str) : result str :=
  do coords <- genfromtxt content (lit ", ") 1;
  do x <- column coords 0;
  do y <- column coords 1;
  do z <- column coords 2;
  do n <- index (shape x) 0;
  do ply_header <- percent pointcloud_header (Single (VInt (Z.of_nat n)));
  do X <- column_stack [x; y; z];
  savetxt X (lit "%f %f %f") ply_header.

(** *** [save_trajectory_from_ORB_SLAM] *)

(** The loop over the lines, appending to the lists [x], [y], [z]. *)
Fixpoint trajectory_loop (lines : list str) (x y z : list float)
  : result (list float * list float * list float) :=
  match lines with
  | [] => Ok (x, y, z)
  | line :: rest =>
      let cols := split (lit " ") (strip line) in
      do c4 <- index cols 4;
      do tx <- python_float c4;
      do c8 <- index cols 8;
      do ty <- python_float c8;
      do c12 <- index cols 12;
      do tz <- python_float c12;
      trajectory_loop rest (x ++ [tx]) (y ++ [ty]) (z ++ [tz])
  end.

Definition trajectory_header : str :=
  text_lines
    [ "ply"; "format ascii 1.0"; "element vertex %d";
      "property float x"; "property float y"; "property float z";
      "property uchar red"; "property uchar green"; "property uchar blue";
      "end_header" ]%string.

Definition trajectory_ply (content : str) : result str :=
  do xyz <- trajectory_loop (readlines content) [] [] [];
  let x := Array1 xyz.1.1 in
  let y := Array1 xyz.1.2 in
  let z := Array1 xyz.2 in
  let r := times (ones_like x) 144 in
  let g := times (ones_like x) 238 in
  let b := times (ones_like x) 144 in
  do ply_header <- percent trajectory_header
                     (Tuple (map (fun d => VInt (Z.of_nat d)) (shape x)));
  do X <- column_stack [x; y; z; r; g; b];
  savetxt X (lit "%f %f %f %d %d %d") ply_header.

(** *** [plot_3d_point_cloud] *)

(** The scan for the end of the header; [header_end] stays [0] when
    no line is ["end_header"]. *)
Fixpoint find_header_end (lines : list str) (i : nat) : nat :=
  match lines with
  | [] => 0%nat
  | line :: rest =>
      if str_eqb (strip line) (lit "end_header") then (i + 1)%nat
      else find_header_end rest (i + 1)
  end.

(** The arguments of the [scatter] call: the three coordinate
    columns, the colour being the third. *)
Record scatter : Type :=
  Scatter { scatter_x : ndarray; scatter_y : ndarray; scatter_z : ndarray;
            scatter_c : ndarray }.

Definition plot_lines (lines : list str) : result scatter :=
  let header_end := find_header_end lines 0 in
  do points <- loadtxt (drop header_end lines);
  do x <- column points 0;
  do y <- column points 1;
  do z <- column points 2;
  Ok (Scatter x y z z).

Definition plot_text (content : str) : result scatter :=
  plot_lines (readlines content).

(** *** Files

    The functions as they act on files.  Both converters read and
    parse their input before [savetxt] opens the output file, and
    formatting the rows cannot fail, so a run that raises leaves the
    files as they were. *)

Abbreviation filesystem := (gmap string str).

Definition read_text (fs : filesystem) (path : string) : result str :=
  match fs !! path with
  | Some content => Ok content
  | None => Raise FileNotFoundError
  end.

Definition save_pointcloud_from_ORB_SLAM (fs : filesystem) (input_file output_file : string)
  : result filesystem :=
  do content <- read_text fs input_file;
  do out <- pointcloud_ply content;
  Ok (<[output_file := out]> fs).

Definition save_trajectory_from_ORB_SLAM (fs : filesystem) (input_file output_file : string)
  : result filesystem :=
  do content <- read_text fs input_file;
  do out <- trajectory_ply content;
  Ok (<[output_file := out]> fs).

Definition plot_3d_point_cloud (fs : filesystem) (ply_file : string) : result scatter :=
  do content <- read_text fs ply_file;
  plot_text content.

(** *** The script

    The entry point converts the map-point file and views the file it
    wrote; the paths are fixed in the source (the trajectory call is
    commented out there). *)

Definition input_file : string :=
  "/home/autonomy/Dev/YOLO_Py/point_cloud/PointCloud.txt".

Definition output_file : string := "./point_cloud/output.ply".

Definition main (fs : filesystem) : result (filesystem * scatter) :=
  do fs1 <- save_pointcloud_from_ORB_SLAM fs input_file output_file;
  do sc <- plot_3d_point_cloud fs1 output_file;
  Ok (fs1, sc).

(** * Vocabulary of the properties *)

(** ** Character classes *)

(** The characters [%f] can print. *)
Definition float_char (c : ascii) : bool :=
  is_digit c || existsb (Ascii.eqb c) (lit "-.nanif").

(** Neither whitespace, nor a comment marker, nor an underscore. *)
Definition is_plain (c : ascii) : bool :=
  negb (is_space c) && negb (Ascii.eqb c "#") && negb (Ascii.eqb c "_")
  && negb (Ascii.eqb c NL) && negb (Ascii.eqb c CR).

(** Not a line terminator. *)
Definition no_break (c : ascii) : bool :=
  negb (Ascii.eqb c NL) && negb (Ascii.eqb c CR).

(** The text does not start with a character of the class [p]. *)
Definition starts_clean (p : ascii -> bool) (s : str) : bool :=
  match s with
  | [] => true
  | c :: _ => negb (p c)
  end.

(** The characters of a literal: digits, point, exponent mark and
    signs. *)
Definition numeral_char (c : ascii) : bool :=
  is_digit c || existsb (Ascii.eqb c) (lit ".eE+-").


(** ** The written text *)

Definition with_NL (l : str) : str := l ++ [NL].

(** The text whose lines are [ls], each terminated by a newline. *)
Definition unlines (ls : list str) : str :=
  concat (map (fun l => l ++ [NL]) ls).

Definition vertex_line (n : nat) : str :=
  lit "element vertex " ++ dec (N.of_nat n).

(** The header lines of the vertex-only file declaring [n] vertices. *)
Definition pointcloud_head (n : nat) : list str :=
  [ lit "ply"; lit "format ascii 1.0"; vertex_line n;
    lit "property float x"; lit "property float y"; lit "property float z";
    lit "end_header" ].

(** The header lines of the coloured file declaring [n] vertices. *)
Definition trajectory_head (n : nat) : list str :=
  [ lit "ply"; lit "format ascii 1.0"; vertex_line n;
    lit "property float x"; lit "property float y"; lit "property float z";
    lit "property uchar red"; lit "property uchar green";
    lit "property uchar blue"; lit "end_header" ].

(** One body line of the vertex-only file. *)
Definition pointcloud_row (r : list float) : str :=
  fmt_f (nth 0 r nan) ++ lit " " ++ fmt_f (nth 1 r nan) ++ lit " " ++ fmt_f (nth 2 r nan).

(** One body line of the coloured file. *)
Definition trajectory_row (x y z : float) : str :=
  fmt_f x ++ lit " " ++ fmt_f y ++ lit " " ++ fmt_f z ++ lit " 144 238 144".

(** An entry of a colour column: [numpy.ones_like(x) * n]. *)
Definition colour (n : Z) : float := SFmul 53 1024 (float_of_Z 1) (float_of_Z n).

(** The points collected by the loop, one per index. *)
Definition points (x y z : list float) : list (float * float * float) :=
  map (fun i => (nth i x nan, nth i y nan, nth i z nan)) (seq 0 (length x)).

Definition point_row (p : float * float * float) : str :=
  trajectory_row p.1.1 p.1.2 p.2.

(** ** Reading a PLY text *)

(** The body of a PLY text: the lines after the header, delimited as
    the viewer does. *)
Definition ply_body (lines : list str) : list str :=
  drop (find_header_end lines 0) lines.

(** The text after ["element vertex "] on a header line. *)
Definition vertex_field (line : str) : option str :=
  if starts_with (lit "element vertex ") line
  then Some (strip (drop 15 line))
  else None.

(** The field of the first ["element vertex "] line. *)
Fixpoint declared_field (lines : list str) : option str :=
  match lines with
  | [] => None
  | l :: t =>
      match vertex_field l with
      | Some f => Some f
      | None => declared_field t
      end
  end.

(** The vertex count a PLY text declares, when the field is a
    decimal numeral. *)
Definition declared_vertices (lines : list str) : option N :=
  match declared_field lines with
  | Some f => undec f
  | None => None
  end.

Definition not_end_header (l : str) : Prop :=
  str_eqb (strip l) (lit "end_header") = false.

(** A vertex line: at least one field, every field a literal
    [loadtxt] converts. *)
Definition vertex_text (v : str) : Prop :=
  words (before_comment v) <> []
  /\ Forall (fun t => exists x, numpy_float t = Some x) (words (before_comment v)).

(** ** Precision *)

(** What [float] reads in the text [%f] printed for [v]. *)
Definition reread (v : float) : float := loose_float (fmt_f v).

(** The value the viewer reads for a coordinate printed with [%f]. *)
Definition viewed (v : float) : float := float32 (reread v).


(** ** Malformed inputs and outputs *)

(** On some input the trajectory converter succeeds and the text
    after ["element vertex "] is not an integer. *)
Definition malformed_vertex_count : Prop :=
  exists content out,
    trajectory_ply content = Ok out
    /\ declared_vertices (readlines out) = None.

(** A line the loop cannot process: stripped and split at single
    blanks it has fewer than 13 fields, or its field 4, 8 or 12 is
    not a float literal. *)
Definition bad_pose_line (line : str) : Prop :=
  let cols := split (lit " ") (strip line) in
  (length cols < 13)%nat
  \/ exists i t, (i = 4 \/ i = 8 \/ i = 12)%nat
                 /\ cols !! i = Some t /\ parse_float t = None.

(** ** Sample files *)

(** Map-point files: a header line, then one row per point. *)
Definition no_point_csv : str :=
  text_lines [ "pos_x, pos_y, pos_z"; "" ]%string.

Definition one_point_csv : str :=
  text_lines [ "pos_x, pos_y, pos_z"; "1.0, 2.0, 3.0"; "" ]%string.

Definition two_point_csv : str :=
  text_lines [ "pos_x, pos_y, pos_z"; "1.0, 2.0, 3.0"; "4.5, 5.0, 6.25"; "" ]%string.

Definition two_point_ply : str :=
  unlines (pointcloud_head 2 ++ [lit "1.000000 2.000000 3.000000";
                                 lit "4.500000 5.000000 6.250000"]).


Definition non_numeric_csv : str :=
  text_lines [ "pos_x, pos_y, pos_z"; "1.0, 2.0, 3.0"; "4.5, abc, 6.0"; "" ]%string.

Definition short_row_csv : str :=
  text_lines [ "pos_x, pos_y, pos_z"; "1.0, 2.0"; "4.5, 5.0"; "" ]%string.



(** A pose line with two blanks before its last entry. *)
Definition double_blank_line : str := lit "img.png 1 0 0 10 0 1 0 20 0 0  30".

(** A numeric text without any PLY header. *)
Definition headerless_text : str :=
  text_lines [ "1 2 3"; "4 5 6"; "" ]%string.

(** ** Rows and lines *)

(** The point a pose line stands for: its fields 4, 8 and 12. *)
Definition pose_point (line : str) : float * float * float :=
  let cols := split (lit " ") (strip line) in
  (loose_float (nth 4 cols []), loose_float (nth 8 cols []),
   loose_float (nth 12 cols [])).

(** A line the loop can process: stripped and split at single blanks
    it has fields 4, 8 and 12 (so at least 13 fields), all three float
    literals. *)
Definition good_pose_line (line : str) : Prop :=
  let cols := split (lit " ") (strip line) in
  exists c4 c8 c12 tx ty tz,
    cols !! 4%nat = Some c4 /\ cols !! 8%nat = Some c8 /\ cols !! 12%nat = Some c12
    /\ parse_float c4 = Some tx /\ parse_float c8 = Some ty
    /\ parse_float c12 = Some tz.

(** A table of [k] columns and at least two rows, every field a
    literal [loadtxt] converts. *)
Definition numeric_table (k : nat) (rows : list (list str)) : Prop :=
  (2 <= length rows)%nat
  /\ Forall (fun r => length r = k) rows
  /\ Forall (Forall (fun t => exists x, numpy_float t = Some x)) rows.

(** The double [loadtxt] finds in a field ([nan] where there is none). *)
Definition numpy_value (tok : str) : float :=
  match numpy_float tok with
  | Some x => x
  | None => nan
  end.

(** The column [j] of a table of fields, as the viewer reads it. *)
Definition viewed_column (j : nat) (rows : list (list str)) : ndarray :=
  Array1 (map (fun r => float32 (numpy_value (nth j r []))) rows).

(** Map-point files differing in their first line only. *)
Definition renamed_columns_csv : str :=
  text_lines [ "x, y, z"; "1.0, 2.0, 3.0"; "4.5, 5.0, 6.25"; "" ]%string.

(** A trajectory file of two poses. *)
Definition two_pose_text : str :=
  text_lines [ "a.png 1 0 0 10 0 1 0 20 0 0 1 30";
               "b.png 1 0 0 11 0 1 0 21 0 0 1 31"; "" ]%string.

Definition two_pose_ply : str :=
  unlines (trajectory_head 2
             ++ [lit "10.000000 20.000000 30.000000 144 238 144";
                 lit "11.000000 21.000000 31.000000 144 238 144"]).

(** A trajectory file of one pose, and the file written for it. *)
Definition one_pose_text : str := lit "img.png 1 0 0 10 0 1 0 20 0 0 1 30".

Definition one_pose_ply : str :=
  unlines (trajectory_head 1 ++ [lit "10.000000 20.000000 30.000000 144 238 144"]).

(** The files of the script, with a map of two points. *)
Definition script_files : gmap string str :=
  {[ input_file := two_point_csv ]}.

(** * Properties *)

(** ** Characters and decimal numerals *)

Lemma float_char_plain (c : ascii) : float_char c = true -> is_plain c = true.
Proof.
  destruct c as [[] [] [] [] [] [] [] []]; vm_compute; congruence.
Qed.

Lemma is_digit_float_char (c : ascii) : is_digit c = true -> float_char c = true.
Proof. unfold float_char. intros ->. reflexivity. Qed.

Lemma is_plain_space (c : ascii) : is_plain c = true -> is_space c = false.
Proof.
  unfold is_plain. destruct (is_space c); [discriminate | reflexivity].
Qed.

Lemma is_digit_not_sign (c : ascii) :
  is_digit c = true -> Ascii.eqb c "-" = false /\ Ascii.eqb c "+" = false.
Proof.
  destruct c as [[] [] [] [] [] [] [] []]; vm_compute; intuition congruence.
Qed.

Lemma numeral_digits (d : Decimal.uint) :
  Forall (fun c => is_digit c = true)
         (list_ascii_of_string (NilEmpty.string_of_uint d)).
Proof.
  induction d; simpl; constructor; auto.
Qed.

Lemma dec_digits (n : N) : Forall (fun c => is_digit c = true) (dec n).
Proof.
  unfold dec, NilZero.string_of_uint.
  destruct (N.to_uint n) eqn:E; try apply numeral_digits.
  repeat constructor.
Qed.

Lemma dec_nonempty (n : N) : dec n <> [].
Proof.
  unfold dec, NilZero.string_of_uint.
  destruct (N.to_uint n); discriminate.
Qed.

Lemma undec_dec (n : N) : undec (dec n) = Some n.
Proof.
  unfold undec, dec. rewrite string_of_list_ascii_of_string.
  destruct (NilZero.usu_gen (N.to_uint n)) as [-> | E].
  - f_equal. apply DecimalN.Unsigned.of_to.
  - rewrite E. f_equal.
    destruct (N.to_uint n) eqn:En;
      try (rewrite NilZero.usu in E by discriminate; injection E as E;
           rewrite <- E, <- En; apply DecimalN.Unsigned.of_to).
    rewrite <- (DecimalN.Unsigned.of_to n), En. reflexivity.
Qed.

Lemma pad_zeros_digits (w : nat) (s : str) :
  Forall (fun c => is_digit c = true) s ->
  Forall (fun c => is_digit c = true) (pad_zeros w s).
Proof.
  intros H. unfold pad_zeros. apply Forall_app. split; [| exact H].
  induction (w - length s)%nat; simpl; constructor; auto.
Qed.

(** ** Stripping, splitting and lines *)

Lemma lstrip_by_id (p : ascii -> bool) (s : str) :
  Forall (fun c => p c = false) s -> lstrip_by p s = s.
Proof.
  destruct 1 as [| c t Hc _]; simpl; [reflexivity |].
  rewrite Hc. reflexivity.
Qed.

Lemma strip_by_id (p : ascii -> bool) (s : str) :
  Forall (fun c => p c = false) s -> strip_by p s = s.
Proof.
  intros H. unfold strip_by, rstrip_by.
  rewrite (lstrip_by_id p s H).
  rewrite lstrip_by_id; [apply rev_involutive |].
  apply Forall_rev. exact H.
Qed.

Lemma lstrip_by_clean (p : ascii -> bool) (s : str) :
  starts_clean p s = true -> lstrip_by p s = s.
Proof.
  destruct s as [| c t]; simpl; [reflexivity |].
  destruct (p c); [discriminate | reflexivity].
Qed.

Lemma lstrip_by_drop (p : ascii -> bool) (pre rest : str) :
  Forall (fun c => p c = true) pre ->
  lstrip_by p (pre ++ rest) = lstrip_by p rest.
Proof.
  induction 1 as [| c t Hc _ IH]; simpl; [reflexivity |].
  rewrite Hc. exact IH.
Qed.

(** Trailing characters of the stripped class disappear. *)
Lemma strip_by_trailing (p : ascii -> bool) (s tail : str) :
  starts_clean p s = true ->
  starts_clean p (rev s) = true ->
  Forall (fun c => p c = true) tail ->
  strip_by p (s ++ tail) = s.
Proof.
  intros Hs Hr Ht. unfold strip_by, rstrip_by.
  destruct s as [| c t].
  - simpl. rewrite <- (app_nil_r tail), lstrip_by_drop by exact Ht. reflexivity.
  - rewrite (lstrip_by_clean p ((c :: t) ++ tail)) by exact Hs.
    rewrite rev_app_distr, lstrip_by_drop by (apply Forall_rev; exact Ht).
    rewrite lstrip_by_clean by exact Hr. apply rev_involutive.
Qed.

Lemma starts_clean_all (p : ascii -> bool) (s : str) :
  Forall (fun c => p c = false) s -> starts_clean p s = true.
Proof. destruct 1 as [| c t Hc _]; simpl; [reflexivity | rewrite Hc; reflexivity]. Qed.

(** *** [split] *)

Lemma split_scan_token (sp : ascii) (a : str) :
  Forall (fun c => Ascii.eqb sp c = false) a ->
  split_scan [sp] 0 a = (a, []).
Proof.
  induction 1 as [| c t Hc _ IH]; simpl; [reflexivity |].
  rewrite Hc. simpl. rewrite IH. reflexivity.
Qed.



Lemma before_comment_id (s : str) :
  Forall (fun c => Ascii.eqb c "#" = false) s -> before_comment s = s.
Proof.
  intros H. unfold before_comment, split.
  change (lit "#") with ["#"%char].
  rewrite split_scan_token; [reflexivity |].
  eapply Forall_impl; [exact H |]. intros c Hc. simpl in Hc.
  rewrite Ascii.eqb_sym. exact Hc.
Qed.

(** *** [words] *)

Lemma words_scan_token (a rest : str) :
  Forall (fun c => is_space c = false) a ->
  words_scan (a ++ rest) = (a ++ (words_scan rest).1, (words_scan rest).2).
Proof.
  induction 1 as [| c t Hc _ IH]; simpl.
  - destruct (words_scan rest); reflexivity.
  - rewrite IH, Hc. reflexivity.
Qed.

Lemma words_cons (a : str) (sp : ascii) (rest : str) :
  a <> [] ->
  Forall (fun c => is_space c = false) a ->
  is_space sp = true ->
  words (a ++ sp :: rest) = a :: words rest.
Proof.
  intros Hne Ha Hsp. unfold words at 1.
  rewrite words_scan_token by exact Ha.
  simpl. unfold words. destruct (words_scan rest) as [w ws].
  rewrite Hsp. simpl. rewrite app_nil_r.
  destruct a; [contradiction | reflexivity].
Qed.

Lemma words_blank (tail : str) :
  Forall (fun c => is_space c = true) tail -> words_scan tail = ([], []).
Proof.
  induction 1 as [| c t Hc _ IH]; simpl; [reflexivity |].
  rewrite IH, Hc. reflexivity.
Qed.

(** *** Lines *)

Lemma is_plain_no_break (c : ascii) : is_plain c = true -> no_break c = true.
Proof.
  unfold is_plain, no_break. 
  destruct (Ascii.eqb c NL), (Ascii.eqb c CR); 
    rewrite ?andb_false_r; simpl; congruence.
Qed.

Lemma universal_newlines_line (l rest : str) :
  Forall (fun c => no_break c = true) l ->
  universal_newlines (l ++ NL :: rest) = l ++ NL :: universal_newlines rest.
Proof.
  induction 1 as [| c t Hc _ IH]; simpl; [reflexivity |].
  unfold no_break in Hc. destruct (Ascii.eqb c CR).
  - rewrite andb_false_r in Hc. discriminate.
  - rewrite IH. reflexivity.
Qed.

Lemma keepends_line (l rest : str) :
  Forall (fun c => no_break c = true) l ->
  keepends (l ++ NL :: rest) = (l ++ [NL]) :: keepends rest.
Proof.
  induction 1 as [| c t Hc _ IH]; simpl; [reflexivity |].
  unfold no_break in Hc. destruct (Ascii.eqb c NL).
  - discriminate.
  - rewrite IH. reflexivity.
Qed.

(** A text made of newline-terminated lines reads back as these lines. *)
Lemma readlines_lines (ls : list str) :
  Forall (Forall (fun c => no_break c = true)) ls ->
  readlines (concat (map (fun l => l ++ [NL]) ls)) = map (fun l => l ++ [NL]) ls.
Proof.
  unfold readlines. induction 1 as [| l t Hl _ IH]; simpl; [reflexivity |].
  rewrite <- app_assoc. simpl.
  rewrite universal_newlines_line by exact Hl.
  rewrite keepends_line by exact Hl.
  rewrite IH. reflexivity.
Qed.

(** ** Reading back what [%f] prints *)

Lemma fmt_f_chars (v : float) : Forall (fun c => float_char c = true) (fmt_f v).
Proof.
  assert (Hs : forall s, Forall (fun c => float_char c = true) (sign_text s)).
  { intros []; repeat constructor. }
  assert (Hd : forall l, Forall (fun c => is_digit c = true) l ->
                         Forall (fun c => float_char c = true) l).
  { intros l H. eapply Forall_impl; [exact H |]. apply is_digit_float_char. }
  destruct v as [s | s | | s m e]; unfold fmt_f.
  - apply Forall_app. split; [apply Hs | repeat constructor].
  - apply Forall_app. split; [apply Hs | repeat constructor].
  - repeat constructor.
  - cbv zeta. apply Forall_app. split; [apply Hs |].
    apply Forall_app. split; [apply Hd, dec_digits |].
    apply Forall_app. split; [repeat constructor |].
    apply Hd, pad_zeros_digits, dec_digits.
Qed.

Lemma fmt_f_nonempty (v : float) : fmt_f v <> [].
Proof.
  destruct v as [s | s | | s m e]; unfold fmt_f;
    [destruct s; discriminate | destruct s; discriminate | discriminate |].
  cbv zeta. intros H. apply app_eq_nil in H as [_ H].
  apply app_eq_nil in H as [H _]. exact (dec_nonempty _ H).
Qed.

Lemma fmt_f_plain (v : float) : Forall (fun c => is_plain c = true) (fmt_f v).
Proof.
  eapply Forall_impl; [apply fmt_f_chars |]. apply float_char_plain.
Qed.

Lemma remove_underscores_id (prev : ascii) (s : str) :
  Ascii.eqb prev "_" = false ->
  Forall (fun c => Ascii.eqb c "_" = false) s ->
  remove_underscores prev s = Some s.
Proof.
  intros Hp H. revert prev Hp.
  induction H as [| c t Hc _ IH]; intros prev Hp; simpl.
  - rewrite Hp. reflexivity.
  - rewrite Hc, Hp. simpl. rewrite (IH c Hc). reflexivity.
Qed.

Lemma span_digits_all (d rest : str) :
  Forall (fun c => is_digit c = true) d ->
  match rest with [] => True | c :: _ => is_digit c = false end ->
  span_digits (d ++ rest) = (d, rest).
Proof.
  intros Hd Hr. induction Hd as [| c t Hc _ IH]; simpl.
  - destruct rest as [| c t]; [reflexivity |]. simpl. rewrite Hr. reflexivity.
  - rewrite Hc, IH. reflexivity.
Qed.

Lemma parse_decimal_fixed (ip fp : str) :
  ip <> [] ->
  Forall (fun c => is_digit c = true) ip ->
  Forall (fun c => is_digit c = true) fp ->
  parse_decimal (ip ++ "."%char :: fp)
  = Some (digits_value (ip ++ fp), - Z.of_nat (length fp)).
Proof.
  intros Hne Hi Hf. unfold parse_decimal.
  rewrite span_digits_all by (exact Hi || reflexivity).
  simpl. rewrite <- (app_nil_r fp) at 1.
  rewrite span_digits_all by (exact Hf || exact I).
  destruct (ip ++ fp) eqn:E.
  - apply app_eq_nil in E as [E _]. contradiction.
  - reflexivity.
Qed.

Lemma is_space_float_space (c : ascii) :
  is_space c = false -> is_float_space c = false.
Proof.
  destruct c as [[] [] [] [] [] [] [] []]; vm_compute; congruence.
Qed.

Lemma is_plain_underscore (c : ascii) :
  is_plain c = true -> Ascii.eqb c "_" = false.
Proof.
  destruct c as [[] [] [] [] [] [] [] []]; vm_compute; congruence.
Qed.

(** On a text without whitespace or underscores [float] reads the
    literal as it stands. *)
Lemma parse_float_clean (s : str) :
  Forall (fun c => is_space c = false) s ->
  Forall (fun c => Ascii.eqb c "_" = false) s ->
  parse_float s = parse_literal s.
Proof.
  intros Hs Hu. unfold parse_float. rewrite strip_by_id.
  2:{ eapply Forall_impl; [exact Hs |]. apply is_space_float_space. }
  rewrite remove_underscores_id; [reflexivity | reflexivity | exact Hu].
Qed.

Lemma parse_float_plain (s : str) :
  Forall (fun c => is_plain c = true) s -> parse_float s = parse_literal s.
Proof.
  intros H. apply parse_float_clean.
  - eapply Forall_impl; [exact H |]. apply is_plain_space.
  - eapply Forall_impl; [exact H |]. apply is_plain_underscore.
Qed.

(** On a text without whitespace NumPy reads the literal as it
    stands. *)
Lemma numpy_float_token (s : str) :
  Forall (fun c => is_space c = false) s -> numpy_float s = parse_literal s.
Proof. intros H. unfold numpy_float. rewrite strip_by_id by exact H. reflexivity. Qed.

Lemma parse_literal_fixed (neg : bool) (ip fp : str) :
  ip <> [] ->
  Forall (fun c => is_digit c = true) ip ->
  Forall (fun c => is_digit c = true) fp ->
  parse_literal (sign_text neg ++ ip ++ "."%char :: fp)
  = Some (float_of_decimal neg (digits_value (ip ++ fp)) (- Z.of_nat (length fp))).
Proof.
  intros Hne Hi Hf. unfold parse_literal.
  assert (Hsign : split_sign (sign_text neg ++ ip ++ "."%char :: fp)
                  = (neg, ip ++ "."%char :: fp)).
  { destruct neg; [reflexivity |]. simpl.
    destruct ip as [| c t]; [contradiction |].
    inversion Hi as [| ? ? Hc _]; subst. simpl.
    destruct (is_digit_not_sign c Hc) as [-> ->]. reflexivity. }
  rewrite Hsign. rewrite parse_decimal_fixed by assumption. reflexivity.
Qed.

(** A fixed-point numeral is a float literal. *)
Lemma parse_float_fixed (neg : bool) (ip fp : str) :
  ip <> [] ->
  Forall (fun c => is_digit c = true) ip ->
  Forall (fun c => is_digit c = true) fp ->
  parse_float (sign_text neg ++ ip ++ "."%char :: fp)
  = Some (float_of_decimal neg (digits_value (ip ++ fp)) (- Z.of_nat (length fp))).
Proof.
  intros Hne Hi Hf. rewrite parse_float_plain.
  - apply parse_literal_fixed; assumption.
  - eapply Forall_impl; [| apply float_char_plain].
    repeat (apply Forall_app; split).
    + destruct neg; repeat constructor.
    + eapply Forall_impl; [exact Hi |]. apply is_digit_float_char.
    + constructor; [reflexivity |].
      eapply Forall_impl; [exact Hf |]. apply is_digit_float_char.
Qed.

Lemma python_float_fmt_f (v : float) : python_float (fmt_f v) = Ok (reread v).
Proof.
  unfold python_float, reread, loose_float.
  destruct v as [s | s | | s m e].
  - destruct s; reflexivity.
  - destruct s; reflexivity.
  - reflexivity.
  - unfold fmt_f. cbv zeta.
    assert (E : forall t : str, lit "." ++ t = "."%char :: t) by reflexivity.
    rewrite !E.
    rewrite parse_float_fixed; [reflexivity | apply dec_nonempty | apply dec_digits |].
    apply pad_zeros_digits, dec_digits.
Qed.

(** NumPy and [float] read the same value in what [%f] printed. *)
Lemma numpy_float_fmt_f (v : float) : numpy_float (fmt_f v) = Some (reread v).
Proof.
  rewrite numpy_float_token.
  2:{ eapply Forall_impl; [apply fmt_f_plain |]. apply is_plain_space. }
  rewrite <- parse_float_plain by apply fmt_f_plain.
  pose proof (python_float_fmt_f v) as H. unfold python_float in H.
  destruct (parse_float (fmt_f v)); [congruence | discriminate].
Qed.

(** ** The text the converters write *)

Lemma traverse_map_ok {A B : Type} (f : A -> result B) (g : A -> B) (l : list A) :
  Forall (fun a => f a = Ok (g a)) l -> traverse f l = Ok (map g l).
Proof.
  induction 1 as [| a t Ha _ IH]; simpl; [reflexivity |].
  rewrite Ha. simpl. rewrite IH. reflexivity.
Qed.

Lemma map_seq_nth {A B : Type} (h : A -> B) (l : list A) (d : A) :
  map (fun i => h (nth i l d)) (seq 0 (length l)) = map h l.
Proof.
  induction l as [| a t IH]; simpl; [reflexivity |].
  f_equal. rewrite <- seq_shift, map_map. exact IH.
Qed.

Lemma nth_singletons (i : nat) (col : list float) :
  (i < length col)%nat -> nth i (map (fun v => [v]) col) [] = [nth i col nan].
Proof.
  revert i. induction col as [| v t IH]; intros i Hi; simpl in *; [lia |].
  destruct i; [reflexivity |]. apply IH. lia.
Qed.

(** Stacking vectors of one length side by side. *)
Lemma hstack_vectors (n : nat) (cols : list (list float)) :
  Forall (fun col => length col = n) cols ->
  hstack n (map (map (fun v => [v])) cols)
  = map (fun i => map (fun col => nth i col nan) cols) (seq 0 n).
Proof.
  intros H. unfold hstack. apply map_ext_in. intros i Hi.
  apply in_seq in Hi. rewrite map_map.
  induction H as [| col t Hc _ IH]; simpl; [reflexivity |].
  rewrite nth_singletons by lia. simpl. f_equal. exact IH.
Qed.

Lemma dec_Z_nat (n : nat) : dec_Z (Z.of_nat n) = dec (N.of_nat n).
Proof.
  rewrite <- nat_N_Z. destruct (N.of_nat n); reflexivity.
Qed.

Lemma join_unlines (ls : list str) :
  ls <> [] -> join [NL] ls ++ [NL] = unlines ls.
Proof.
  induction ls as [| l t IH]; [contradiction |]. intros _.
  destruct t as [| l' t'].
  - unfold unlines. simpl. symmetry. apply app_nil_r.
  - change (join [NL] (l :: l' :: t')) with (l ++ [NL] ++ join [NL] (l' :: t')).
    change (unlines (l :: l' :: t')) with ((l ++ [NL]) ++ unlines (l' :: t')).
    rewrite <- IH by discriminate.
    rewrite <- !app_assoc. reflexivity.
Qed.

Lemma unlines_app (a b : list str) : unlines (a ++ b) = unlines a ++ unlines b.
Proof. unfold unlines. rewrite map_app, concat_app. reflexivity. Qed.

Lemma pointcloud_header_text (n : nat) :
  percent pointcloud_header (Single (VInt (Z.of_nat n)))
  = Ok (join [NL] (pointcloud_head n)).
Proof.
  unfold percent. simpl. rewrite dec_Z_nat. reflexivity.
Qed.

Lemma trajectory_header_text (x : list float) :
  percent trajectory_header (Tuple (map (fun d => VInt (Z.of_nat d)) (shape (Array1 x))))
  = Ok (join [NL] (trajectory_head (length x))).
Proof.
  unfold percent. simpl. rewrite dec_Z_nat. reflexivity.
Qed.

Lemma pointcloud_row_text (a b c : float) :
  percent (lit "%f %f %f") (Tuple (map VFloat [a; b; c]))
  = Ok (pointcloud_row [a; b; c]).
Proof.
  unfold percent, pointcloud_row. simpl. rewrite app_nil_r. reflexivity.
Qed.

Lemma trajectory_row_text (x y z : float) :
  percent (lit "%f %f %f %d %d %d")
          (Tuple (map VFloat [x; y; z; colour 144; colour 238; colour 144]))
  = Ok (trajectory_row x y z).
Proof.
  unfold percent, trajectory_row. simpl. reflexivity.
Qed.

Lemma column_stack_vectors (n : nat) (cols : list (list float)) :
  cols <> [] ->
  Forall (fun col => length col = n) cols ->
  column_stack (map Array1 cols)
  = Ok (Array2 (length cols)
               (map (fun i => map (fun col => nth i col nan) cols) (seq 0 n))).
Proof.
  intros Hne H. unfold column_stack. rewrite map_map.
  assert (Hblocks : map (fun x => as_block (Array1 x)) cols
                    = map (fun col => (1%nat, map (fun v => [v]) col)) cols)
    by reflexivity.
  rewrite Hblocks. clear Hblocks.
  destruct cols as [| c0 rest]; [contradiction |].
  inversion H as [| ? ? H0 Hrest]; subst.
  simpl map at 1. cbv beta iota zeta. rewrite length_map.
  assert (Hlen : forallb (fun b : nat * list (list float) =>
                            (length b.2 =? length c0)%nat)
                         (map (fun col => (1%nat, map (fun v => [v]) col)) rest) = true).
  { clear H Hne. induction Hrest as [| c t Hc _ IH]; [reflexivity |].
    simpl map. simpl forallb. rewrite length_map, Hc, Nat.eqb_refl. exact IH. }
  rewrite Hlen. f_equal. f_equal.
  - clear. simpl. f_equal. induction rest; simpl; [reflexivity | f_equal; assumption].
  - change ((1%nat, map (fun v => [v]) c0)
              :: map (fun col => (1%nat, map (fun v : float => [v]) col)) rest)
      with (map (fun col => (1%nat, map (fun v : float => [v]) col)) (c0 :: rest)).
    rewrite map_map. simpl snd. apply hstack_vectors. exact H.
Qed.

Lemma savetxt_rows (ncol : nat) (rows : list (list float)) (fmt header : str)
      (row_text : list float -> str) :
  count_percent fmt = ncol ->
  ncol <> 1%nat ->
  Forall (fun r => percent fmt (Tuple (map VFloat r)) = Ok (row_text r)) rows ->
  savetxt (Array2 ncol rows) fmt header
  = Ok (header ++ [NL] ++ unlines (map row_text rows)).
Proof.
  intros Hc Hn Hrows. unfold savetxt. simpl as_block. cbv zeta. cbv iota beta.
  rewrite Hc. destruct (Nat.eqb_spec ncol 1) as [-> | _]; [contradiction |].
  rewrite Nat.eqb_refl. simpl bind.
  rewrite (traverse_map_ok _ (fun r => row_text r ++ [NL])).
  - simpl. unfold unlines. rewrite map_map. reflexivity.
  - eapply Forall_impl; [exact Hrows |]. intros r Hr. simpl. rewrite Hr. reflexivity.
Qed.

Lemma same_length_Forall {A : Type} (n : nat) (rows : list (list A)) :
  same_length n rows = true <-> Forall (fun r => length r = n) rows.
Proof.
  unfold same_length. induction rows as [| r t IH]; simpl.
  - split; [constructor | reflexivity].
  - rewrite andb_true_iff, Nat.eqb_eq, IH. split.
    + intros [? ?]. constructor; assumption.
    + inversion 1; subst. split; [reflexivity | assumption].
Qed.

(** A two-dimensional result of [genfromtxt] has at least two rows
    and other than one column. *)
Lemma genfromtxt_2d (content delimiter : str) (skip : nat) (k : nat)
      (rows : list (list float)) :
  genfromtxt content delimiter skip = Ok (Array2 k rows) ->
  (2 <= length rows)%nat /\ k <> 1%nat
  /\ rows = map (map loose_float) (data_rows content delimiter skip)
  /\ Forall (fun r => length r = k) (data_rows content delimiter skip).
Proof.
  unfold genfromtxt.
  destruct (data_rows content delimiter skip) as [| first rest]; [discriminate |].
  cbv zeta. destruct (same_length (length first) rest) eqn:Hlen; [| discriminate].
  apply same_length_Forall in Hlen.
  destruct rest as [| second rest'].
  - simpl. destruct (length first) as [| [| n]]; discriminate.
  - simpl map. unfold squeeze.
    destruct (length first) as [| [| n]] eqn:Hk; intros [= <- <-].
    + repeat split; [simpl; lia | lia | constructor; assumption].
    + repeat split; [simpl; lia | lia | constructor; assumption].
Qed.

Lemma nth_of_empty (j : nat) : nth j (@nil float) nan = nan.
Proof. destruct j; reflexivity. Qed.

(** Picking columns [js] and stacking them gives back, row by row,
    the entries at [js]. *)
Lemma stacked_columns (js : list nat) (rows : list (list float)) :
  map (fun i => map (fun col => nth i col nan)
                    (map (fun j => map (fun r => nth j r nan) rows) js))
      (seq 0 (length rows))
  = map (fun r => map (fun j => nth j r nan) js) rows.
Proof.
  rewrite <- (map_seq_nth (fun r => map (fun j => nth j r nan) js) rows []).
  apply map_ext. intros i. rewrite map_map. apply map_ext. intros j.
  rewrite <- (nth_of_empty j) at 1.
  apply (map_nth (fun r => nth j r nan)).
Qed.

Lemma index_head {A : Type} (a : A) (l : list A) : index (a :: l) 0 = Ok a.
Proof. reflexivity. Qed.

Lemma pointcloud_ply_array (content : str) (k : nat) (rows : list (list float)) :
  genfromtxt content (lit ", ") 1 = Ok (Array2 k rows) ->
  (3 <= k)%nat ->
  pointcloud_ply content
  = Ok (unlines (pointcloud_head (length rows) ++ map pointcloud_row rows)).
Proof.
  intros Hg Hk. unfold pointcloud_ply. rewrite Hg. cbn [bind]. unfold column.
  assert (H0 : (0 <? k)%nat = true) by (apply Nat.ltb_lt; lia).
  assert (H1 : (1 <? k)%nat = true) by (apply Nat.ltb_lt; lia).
  assert (H2 : (2 <? k)%nat = true) by (apply Nat.ltb_lt; lia).
  rewrite H0, H1, H2. cbn [bind shape]. rewrite index_head.
  cbn [bind]. rewrite length_map, pointcloud_header_text. cbn [bind].
  change [Array1 (map (fun r => nth 0 r nan) rows);
          Array1 (map (fun r => nth 1 r nan) rows);
          Array1 (map (fun r => nth 2 r nan) rows)]
    with (map Array1 (map (fun j => map (fun r : list float => nth j r nan) rows)
                          [0; 1; 2]%nat)).
  rewrite (column_stack_vectors (length rows));
    [| discriminate | repeat constructor; apply length_map].
  cbn [bind]. rewrite stacked_columns.
  rewrite (savetxt_rows _ _ _ _ pointcloud_row).
  - rewrite map_map. change (fun x => pointcloud_row (map (fun j => nth j x nan) [0; 1; 2]%nat))
      with pointcloud_row.
    rewrite app_assoc, join_unlines by discriminate.
    rewrite unlines_app. reflexivity.
  - reflexivity.
  - discriminate.
  - apply Forall_map, Forall_forall. intros r _. apply pointcloud_row_text.
Qed.

Lemma pointcloud_ply_inv (content out : str) :
  pointcloud_ply content = Ok out ->
  exists k rows,
    genfromtxt content (lit ", ") 1 = Ok (Array2 k rows) /\ (3 <= k)%nat
    /\ out = unlines (pointcloud_head (length rows) ++ map pointcloud_row rows).
Proof.
  intros H. 
  destruct (genfromtxt content (lit ", ") 1) as [[x | x | k rows] | e] eqn:Hg;
    try (unfold pointcloud_ply in H; rewrite Hg in H; discriminate).
  destruct (le_lt_dec 3 k) as [Hk | Hk].
  - exists k, rows. rewrite (pointcloud_ply_array _ _ _ Hg Hk) in H.
    injection H as <-. auto.
  - exfalso. unfold pointcloud_ply in H. rewrite Hg in H.
    destruct k as [| [| [| k]]]; [discriminate | discriminate | discriminate | lia].
Qed.

(** *** The trajectory converter *)

Lemma bind_Ok {A B : Type} (m : result A) (k : A -> result B) (b : B) :
  bind m k = Ok b -> exists a, m = Ok a /\ k a = Ok b.
Proof.
  destruct m as [a | e]; simpl; [| discriminate]. intros H. exists a. auto.
Qed.

Ltac bind_inv H a Ha :=
  let H' := fresh H in
  apply bind_Ok in H as (a & Ha & H'); rename H' into H.

Lemma trajectory_loop_lengths (lines : list str) (x y z x' y' z' : list float) :
  trajectory_loop lines x y z = Ok (x', y', z') ->
  length x' = (length x + length lines)%nat
  /\ length y' = (length y + length lines)%nat
  /\ length z' = (length z + length lines)%nat.
Proof.
  revert x y z. induction lines as [| line rest IH]; intros x y z H.
  - injection H as <- <- <-. simpl. lia.
  - cbn [trajectory_loop] in H. cbv zeta in H.
    bind_inv H c4 H4. bind_inv H tx Hx. bind_inv H c8 H8. bind_inv H ty Hy.
    bind_inv H c12 H12. bind_inv H tz Hz.
    apply IH in H. rewrite !length_app in H. simpl in *. lia.
Qed.

Lemma nth_colour (k : Z) (x : list float) (i : nat) :
  (i < length x)%nat ->
  nth i (map (fun v => SFmul 53 1024 v (float_of_Z k))
             (map (fun _ : float => float_of_Z 1) x)) nan
  = colour k.
Proof.
  revert i. induction x as [| v t IH]; intros i Hi; simpl in Hi; [lia |].
  destruct i; [reflexivity |]. simpl. apply IH. lia.
Qed.

Lemma trajectory_ply_points (content : str) (x y z : list float) :
  trajectory_loop (readlines content) [] [] [] = Ok (x, y, z) ->
  trajectory_ply content
  = Ok (unlines (trajectory_head (length x) ++ map point_row (points x y z))).
Proof.
  intros Hloop. unfold trajectory_ply. rewrite Hloop. cbn [bind fst snd].
  apply trajectory_loop_lengths in Hloop as (Hx & Hy & Hz).
  rewrite trajectory_header_text. cbn [bind].
  unfold times, ones_like. cbn [map_array].
  set (r := map _ (map _ x)). set (g := map _ (map _ x)).
  change [Array1 x; Array1 y; Array1 z; Array1 r; Array1 g; Array1 r]
    with (map Array1 [x; y; z; r; g; r]).
  rewrite (column_stack_vectors (length x)).
  2:{ discriminate. }
  2:{ subst r g. repeat constructor; rewrite ?length_map; simpl in *; lia. }
  cbn [bind].
  rewrite (savetxt_rows _ _ _ _ (fun r => trajectory_row (nth 0 r nan) (nth 1 r nan) (nth 2 r nan))).
  - rewrite map_map. cbn [map nth].
    rewrite app_assoc, join_unlines by discriminate.
    rewrite unlines_app. unfold points. rewrite map_map. reflexivity.
  - reflexivity.
  - discriminate.
  - apply Forall_map, List.Forall_forall. intros i Hi.
    apply in_seq in Hi. cbn [map nth].
    subst r g. rewrite !nth_colour by lia. apply trajectory_row_text.
Qed.

Lemma trajectory_ply_inv (content out : str) :
  trajectory_ply content = Ok out ->
  exists x y z,
    trajectory_loop (readlines content) [] [] [] = Ok (x, y, z)
    /\ length x = length (readlines content)
    /\ out = unlines (trajectory_head (length x) ++ map point_row (points x y z)).
Proof.
  intros H.
  destruct (trajectory_loop (readlines content) [] [] []) as [[[x y] z] | e] eqn:Hloop.
  - exists x, y, z. rewrite (trajectory_ply_points _ _ _ _ Hloop) in H.
    injection H as <-. split; [reflexivity |]. split; [| reflexivity].
    apply trajectory_loop_lengths in Hloop. simpl in Hloop. lia.
  - unfold trajectory_ply in H. rewrite Hloop in H. discriminate.
Qed.

(** ** Reading a PLY text *)

Lemma unlines_with_NL (ls : list str) : unlines ls = concat (map with_NL ls).
Proof. reflexivity. Qed.

Lemma strip_vertex_line (n : nat) : strip (with_NL (vertex_line n)) = vertex_line n.
Proof.
  unfold strip, with_NL. apply strip_by_trailing.
  - reflexivity.
  - unfold vertex_line. rewrite rev_app_distr.
    pose proof (dec_digits (N.of_nat n)) as Hd.
    pose proof (dec_nonempty (N.of_nat n)) as Hne.
    apply Forall_rev in Hd.
    destruct (rev (dec (N.of_nat n))) as [| c t] eqn:E.
    + apply (f_equal (@rev ascii)) in E. rewrite rev_involutive in E.
      contradiction.
    + inversion Hd as [| ? ? Hc _]; subst. simpl.
      apply is_digit_float_char, float_char_plain, is_plain_space in Hc.
      rewrite Hc. reflexivity.
  - repeat constructor.
Qed.

Lemma strip_dec_NL (n : N) : strip (dec n ++ [NL]) = dec n.
Proof.
  assert (H : Forall (fun c => is_space c = false) (dec n)).
  { eapply Forall_impl; [apply dec_digits |]. intros c Hc.
    apply is_plain_space, float_char_plain, is_digit_float_char, Hc. }
  unfold strip. apply strip_by_trailing.
  - apply starts_clean_all, H.
  - apply starts_clean_all, Forall_rev, H.
  - repeat constructor.
Qed.

Lemma vertex_line_no_break (n : nat) :
  Forall (fun c => no_break c = true) (vertex_line n).
Proof.
  unfold vertex_line. apply Forall_app. split; [repeat constructor |].
  eapply Forall_impl; [apply dec_digits |]. intros c Hc.
  apply is_plain_no_break, float_char_plain, is_digit_float_char, Hc.
Qed.

Lemma pointcloud_head_no_break (n : nat) :
  Forall (Forall (fun c => no_break c = true)) (pointcloud_head n).
Proof.
  unfold pointcloud_head.
  repeat (constructor; [first [apply vertex_line_no_break | repeat constructor] |]).
  constructor.
Qed.

Lemma trajectory_head_no_break (n : nat) :
  Forall (Forall (fun c => no_break c = true)) (trajectory_head n).
Proof.
  unfold trajectory_head.
  repeat (constructor; [first [apply vertex_line_no_break | repeat constructor] |]).
  constructor.
Qed.

Lemma fmt_f_no_break (v : float) : Forall (fun c => no_break c = true) (fmt_f v).
Proof.
  eapply Forall_impl; [apply fmt_f_plain |]. apply is_plain_no_break.
Qed.

Lemma pointcloud_row_no_break (r : list float) :
  Forall (fun c => no_break c = true) (pointcloud_row r).
Proof.
  unfold pointcloud_row.
  repeat (apply Forall_app; split);
    first [apply fmt_f_no_break | repeat constructor].
Qed.

Lemma trajectory_row_no_break (x y z : float) :
  Forall (fun c => no_break c = true) (trajectory_row x y z).
Proof.
  unfold trajectory_row.
  repeat (apply Forall_app; split);
    first [apply fmt_f_no_break | repeat constructor].
Qed.

(** The header scan passes a line that is not ["end_header"]. *)
Lemma find_header_end_skip (l : str) (rest : list str) (i : nat) :
  str_eqb (strip l) (lit "end_header") = false ->
  find_header_end (l :: rest) i = find_header_end rest (i + 1).
Proof. intros H. cbn [find_header_end]. rewrite H. reflexivity. Qed.

Lemma vertex_line_not_end (n : nat) :
  str_eqb (strip (with_NL (vertex_line n))) (lit "end_header") = false.
Proof. rewrite strip_vertex_line. reflexivity. Qed.

Lemma pointcloud_lines_body (n : nat) (rows : list str) :
  ply_body (map with_NL (pointcloud_head n ++ rows)) = map with_NL rows.
Proof.
  unfold ply_body, pointcloud_head. cbn [map app].
  rewrite 2 find_header_end_skip by reflexivity.
  rewrite find_header_end_skip by apply vertex_line_not_end.
  rewrite 3 find_header_end_skip by reflexivity.
  reflexivity.
Qed.

Lemma trajectory_lines_body (n : nat) (rows : list str) :
  ply_body (map with_NL (trajectory_head n ++ rows)) = map with_NL rows.
Proof.
  unfold ply_body, trajectory_head. cbn [map app].
  rewrite 2 find_header_end_skip by reflexivity.
  rewrite find_header_end_skip by apply vertex_line_not_end.
  rewrite 6 find_header_end_skip by reflexivity.
  reflexivity.
Qed.

Lemma vertex_field_line (n : nat) :
  vertex_field (with_NL (vertex_line n)) = Some (dec (N.of_nat n)).
Proof.
  unfold vertex_field.
  assert (Hs : starts_with (lit "element vertex ") (with_NL (vertex_line n)) = true)
    by reflexivity.
  assert (Hd : drop 15 (with_NL (vertex_line n)) = dec (N.of_nat n) ++ [NL]).
  { unfold with_NL, vertex_line. rewrite <- app_assoc. reflexivity. }
  rewrite Hs, Hd, strip_dec_NL. reflexivity.
Qed.

Lemma pointcloud_lines_declared (n : nat) (rows : list str) :
  declared_field (map with_NL (pointcloud_head n ++ rows)) = Some (dec (N.of_nat n)).
Proof.
  unfold pointcloud_head. cbn [map app declared_field].
  change (vertex_field (with_NL (lit "ply"))) with (@None str).
  change (vertex_field (with_NL (lit "format ascii 1.0"))) with (@None str).
  cbv iota. rewrite vertex_field_line. reflexivity.
Qed.

Lemma trajectory_lines_declared (n : nat) (rows : list str) :
  declared_field (map with_NL (trajectory_head n ++ rows)) = Some (dec (N.of_nat n)).
Proof.
  unfold trajectory_head. cbn [map app declared_field].
  change (vertex_field (with_NL (lit "ply"))) with (@None str).
  change (vertex_field (with_NL (lit "format ascii 1.0"))) with (@None str).
  cbv iota. rewrite vertex_field_line. reflexivity.
Qed.

Lemma readlines_unlines (ls : list str) :
  Forall (Forall (fun c => no_break c = true)) ls ->
  readlines (unlines ls) = map with_NL ls.
Proof. apply readlines_lines. Qed.

(** ** The viewer's parse *)

Lemma to_float32_fmt_f (v : float) : to_float32 (fmt_f v) = Ok (viewed v).
Proof. unfold to_float32. rewrite numpy_float_fmt_f. reflexivity. Qed.

Lemma Forall_map_all {A B : Type} (P : B -> Prop) (f : A -> B) (l : list A) :
  (forall a, P (f a)) -> Forall P (map f l).
Proof. intros H. induction l; simpl; constructor; auto. Qed.

Lemma traverse_images {A B C : Type} (f : B -> result C) (h : A -> B)
      (g : A -> C) (l : list A) :
  (forall a, f (h a) = Ok (g a)) -> traverse f (map h l) = Ok (map g l).
Proof.
  intros H. induction l as [| a t IH]; simpl; [reflexivity |].
  rewrite H. simpl. rewrite IH. reflexivity.
Qed.

Lemma traverse_length {A B : Type} (f : A -> result B) (l : list A) (l' : list B) :
  traverse f l = Ok l' -> length l' = length l.
Proof.
  revert l'. induction l as [| a t IH]; intros l' H; simpl in H.
  - injection H as <-. reflexivity.
  - bind_inv H b Hb. bind_inv H bs Hbs. injection H as <-.
    simpl. f_equal. apply IH. exact Hbs.
Qed.

Lemma filter_nonempty {A : Type} (rows : list (list A)) :
  Forall (fun r => r <> []) rows ->
  List.filter (fun r => negb (is_nil r)) rows = rows.
Proof.
  induction 1 as [| r t Hr _ IH]; simpl; [reflexivity |].
  destruct r; [contradiction |]. simpl. rewrite IH. reflexivity.
Qed.

(** [loadtxt] on at least two rows of [k] fields, [k] other than one,
    gives the table of the converted fields. *)
Lemma loadtxt_table (lines : list str) (toks : list (list str))
      (vals : list (list float)) (k : nat) :
  map (fun l => words (before_comment l)) lines = toks ->
  Forall (fun r => r <> []) toks ->
  Forall (fun r => length r = k) toks ->
  traverse (traverse to_float32) toks = Ok vals ->
  (2 <= length toks)%nat ->
  k <> 1%nat ->
  loadtxt lines = Ok (Array2 k vals).
Proof.
  intros Hw Hne Hk Hv Hn Hk1. unfold loadtxt, field_rows.
  rewrite Hw, filter_nonempty by exact Hne.
  destruct toks as [| first rest]; [simpl in Hn; lia |].
  cbv zeta. rewrite Hv. cbn [bind].
  inversion Hk as [| ? ? Hfirst Hrest]; subst.
  apply same_length_Forall in Hrest. rewrite Hrest.
  apply traverse_length in Hv.
  destruct vals as [| v1 [| v2 vs]]; simpl in Hv, Hn; try lia.
  unfold squeeze. destruct (length first) as [| [| n]]; [reflexivity | contradiction | reflexivity].
Qed.

Lemma words_fields3 (a b c : str) :
  a <> [] -> b <> [] -> c <> [] ->
  Forall (fun x => is_space x = false) a ->
  Forall (fun x => is_space x = false) b ->
  Forall (fun x => is_space x = false) c ->
  words (with_NL (a ++ lit " " ++ b ++ lit " " ++ c)) = [a; b; c].
Proof.
  intros Ha Hb Hc Fa Fb Fc. unfold with_NL.
  rewrite <- !app_assoc. cbn [lit list_ascii_of_string app].
  rewrite !words_cons by (assumption || reflexivity).
  reflexivity.
Qed.

Lemma fmt_f_no_space (v : float) : Forall (fun c => is_space c = false) (fmt_f v).
Proof.
  eapply Forall_impl; [apply fmt_f_plain |]. apply is_plain_space.
Qed.

Lemma fmt_f_no_hash (v : float) : Forall (fun c => Ascii.eqb c "#" = false) (fmt_f v).
Proof.
  eapply Forall_impl; [apply fmt_f_chars |].
  intros c. destruct c as [[] [] [] [] [] [] [] []]; vm_compute; congruence.
Qed.

Lemma pointcloud_row_words (r : list float) :
  words (before_comment (with_NL (pointcloud_row r)))
  = [fmt_f (nth 0 r nan); fmt_f (nth 1 r nan); fmt_f (nth 2 r nan)].
Proof.
  rewrite before_comment_id.
  - unfold pointcloud_row.
    apply words_fields3; first [apply fmt_f_nonempty | apply fmt_f_no_space].
  - unfold with_NL, pointcloud_row.
    repeat (apply Forall_app; split);
      first [apply fmt_f_no_hash | repeat constructor].
Qed.

(** The viewer's parse of a vertex-only PLY text of two or more
    rows. *)
Lemma plot_pointcloud_lines (n : nat) (rows : list (list float)) :
  (2 <= length rows)%nat ->
  plot_lines (map with_NL (pointcloud_head n ++ map pointcloud_row rows))
  = Ok (Scatter (Array1 (map (fun r => viewed (nth 0 r nan)) rows))
                (Array1 (map (fun r => viewed (nth 1 r nan)) rows))
                (Array1 (map (fun r => viewed (nth 2 r nan)) rows))
                (Array1 (map (fun r => viewed (nth 2 r nan)) rows))).
Proof.
  intros Hn. unfold plot_lines. cbv zeta.
  change (drop (find_header_end ?l 0) ?l) with (ply_body l).
  rewrite pointcloud_lines_body.
  rewrite (loadtxt_table _
             (map (fun r => [fmt_f (nth 0 r nan); fmt_f (nth 1 r nan); fmt_f (nth 2 r nan)]) rows)
             (map (fun r => [viewed (nth 0 r nan); viewed (nth 1 r nan); viewed (nth 2 r nan)]) rows)
             3).
  - cbn [bind column Nat.ltb Nat.leb]. rewrite !map_map. reflexivity.
  - rewrite !map_map. apply map_ext. intros r. apply pointcloud_row_words.
  - apply Forall_map_all. intros r. discriminate.
  - apply Forall_map_all. intros r. reflexivity.
  - apply traverse_images. intros r. cbn [traverse].
    rewrite !to_float32_fmt_f. reflexivity.
  - rewrite length_map. exact Hn.
  - discriminate.
Qed.

(** ** Header and body of the written files *)

Lemma pointcloud_output_lines (n : nat) (rows : list (list float)) :
  readlines (unlines (pointcloud_head n ++ map pointcloud_row rows))
  = map with_NL (pointcloud_head n ++ map pointcloud_row rows).
Proof.
  apply readlines_unlines, Forall_app. split.
  - apply pointcloud_head_no_break.
  - apply Forall_map_all, pointcloud_row_no_break.
Qed.

Lemma trajectory_output_lines (n : nat) (pts : list (float * float * float)) :
  readlines (unlines (trajectory_head n ++ map point_row pts))
  = map with_NL (trajectory_head n ++ map point_row pts).
Proof.
  apply readlines_unlines, Forall_app. split.
  - apply trajectory_head_no_break.
  - apply Forall_map_all. intros [[x y] z]. apply trajectory_row_no_break.
Qed.

Lemma points_length (x y z : list float) : length (points x y z) = length x.
Proof. unfold points. rewrite length_map, length_seq. reflexivity. Qed.

(** Whenever the vertex-only converter writes a file, the count it
    declares is the number of body lines. *)
Lemma pointcloud_header_matches_body (content out : str) :
  pointcloud_ply content = Ok out ->
  declared_vertices (readlines out)
  = Some (N.of_nat (length (ply_body (readlines out)))).
Proof.
  intros H. apply pointcloud_ply_inv in H as (k & rows & _ & _ & ->).
  rewrite pointcloud_output_lines. unfold declared_vertices.
  rewrite pointcloud_lines_declared, pointcloud_lines_body, undec_dec.
  rewrite !length_map. reflexivity.
Qed.

(** The trajectory converter declares the number of input lines, and
    writes as many body lines. *)
Lemma trajectory_header_matches_body (content out : str) :
  trajectory_ply content = Ok out ->
  declared_field (readlines out) = Some (dec (N.of_nat (length (readlines content))))
  /\ declared_vertices (readlines out) = Some (N.of_nat (length (readlines content)))
  /\ length (ply_body (readlines out)) = length (readlines content).
Proof.
  intros H. apply trajectory_ply_inv in H as (x & y & z & _ & Hlen & ->).
  rewrite trajectory_output_lines. unfold declared_vertices.
  rewrite trajectory_lines_declared, trajectory_lines_body, undec_dec.
  rewrite !length_map, points_length, Hlen. auto.
Qed.

(** ** The converters on files *)

Lemma save_pointcloud_writes (fs fs1 : filesystem) (input_file output_file : string) :
  save_pointcloud_from_ORB_SLAM fs input_file output_file = Ok fs1 ->
  exists content bytes,
    fs !! input_file = Some content
    /\ pointcloud_ply content = Ok bytes
    /\ fs1 = <[output_file := bytes]> fs.
Proof.
  unfold save_pointcloud_from_ORB_SLAM, read_text. intros H.
  destruct (fs !! input_file) as [content |]; [| discriminate].
  cbn [bind] in H. bind_inv H bytes Hb. injection H as <-. eauto.
Qed.

Lemma save_trajectory_writes (fs fs1 : filesystem) (input_file output_file : string) :
  save_trajectory_from_ORB_SLAM fs input_file output_file = Ok fs1 ->
  exists content bytes,
    fs !! input_file = Some content
    /\ trajectory_ply content = Ok bytes
    /\ fs1 = <[output_file := bytes]> fs.
Proof.
  unfold save_trajectory_from_ORB_SLAM, read_text. intros H.
  destruct (fs !! input_file) as [content |]; [| discriminate].
  cbn [bind] in H. bind_inv H bytes Hb. injection H as <-. eauto.
Qed.

(** ** Failing parses *)

Lemma genfromtxt_raises (content delimiter : str) (skip : nat) (e : exn) :
  genfromtxt content delimiter skip = Raise e -> e = ValueError.
Proof.
  unfold genfromtxt.
  destruct (data_rows content delimiter skip) as [| first rest]; [discriminate |].
  cbv zeta. destruct (same_length (length first) rest); [discriminate | congruence].
Qed.

(** ** Lines of tokens *)





(** ** The pose loop on a bad line *)

Lemma index_Ok {A : Type} (l : list A) (i : nat) (a : A) :
  index l i = Ok a -> l !! i = Some a.
Proof. unfold index. destruct (l !! i); [intros [= ->]; reflexivity | discriminate]. Qed.

Lemma index_raises {A : Type} (l : list A) (i : nat) (e : exn) :
  index l i = Raise e -> e = IndexError.
Proof. unfold index. destruct (l !! i); [discriminate | congruence]. Qed.

Lemma python_float_Ok (t : str) (v : float) :
  python_float t = Ok v -> parse_float t = Some v.
Proof.
  unfold python_float. destruct (parse_float t); [intros [= ->]; reflexivity | discriminate].
Qed.

Lemma python_float_raises (t : str) (e : exn) :
  python_float t = Raise e -> e = ValueError.
Proof.
  unfold python_float. destruct (parse_float t); [discriminate | congruence].
Qed.

Lemma trajectory_loop_bad_line (lines : list str) (line : str) (x y z : list float) :
  In line lines -> bad_pose_line line -> parse_failure (trajectory_loop lines x y z).
Proof.
  intros Hin Hbad. revert x y z.
  induction lines as [| l rest IH]; intros x y z; [destruct Hin |].
  cbn [trajectory_loop]. cbv zeta.
  set (cols := split (lit " ") (strip l)).
  destruct (index cols 4) as [c4 | e] eqn:E4;
    [| apply index_raises in E4 as ->; left; reflexivity]. cbn [bind].
  destruct (python_float c4) as [tx | e] eqn:F4;
    [| apply python_float_raises in F4 as ->; right; reflexivity]. cbn [bind].
  destruct (index cols 8) as [c8 | e] eqn:E8;
    [| apply index_raises in E8 as ->; left; reflexivity]. cbn [bind].
  destruct (python_float c8) as [ty | e] eqn:F8;
    [| apply python_float_raises in F8 as ->; right; reflexivity]. cbn [bind].
  destruct (index cols 12) as [c12 | e] eqn:E12;
    [| apply index_raises in E12 as ->; left; reflexivity]. cbn [bind].
  destruct (python_float c12) as [tz | e] eqn:F12;
    [| apply python_float_raises in F12 as ->; right; reflexivity]. cbn [bind].
  destruct Hin as [-> | Hin]; [| apply IH; exact Hin].
  exfalso. apply index_Ok in E4, E8, E12.
  apply python_float_Ok in F4, F8, F12.
  destruct Hbad as [Hshort | (i & t & Hi & Ht & Hnone)].
  - fold cols in Hshort. apply lookup_lt_Some in E12. lia.
  - fold cols in Ht. destruct Hi as [-> | [-> | ->]]; congruence.
Qed.

(** ** The viewer on unexpected files *)

Lemma find_header_end_none (lines : list str) (i : nat) :
  Forall not_end_header lines -> find_header_end lines i = 0%nat.
Proof.
  intros H. revert i. induction H as [| l t Hl _ IH]; intros i; [reflexivity |].
  rewrite find_header_end_skip by exact Hl. apply IH.
Qed.

(** *** What [float] rejects, NumPy rejects *)

Lemma words_scan_no_space (s : str) :
  Forall (fun c => is_space c = false) (words_scan s).1
  /\ Forall (Forall (fun c => is_space c = false)) (words_scan s).2.
Proof.
  induction s as [| c t [IHw IHws]]; simpl; [split; constructor |].
  destruct (words_scan t) as [w ws]. simpl in *.
  destruct (is_space c) eqn:Ec; simpl.
  - split; [constructor |]. destruct w; [exact IHws | constructor; assumption].
  - split; [constructor; assumption | exact IHws].
Qed.

(** The fields [split()] yields hold no whitespace. *)
Lemma words_no_space (s tok : str) :
  In tok (words s) -> Forall (fun c => is_space c = false) tok.
Proof.
  unfold words. pose proof (words_scan_no_space s) as [Hw Hws].
  destruct (words_scan s) as [w ws]. simpl in *.
  assert (Hall : Forall (Forall (fun c => is_space c = false))
                        (match w with [] => ws | _ => w :: ws end)).
  { destruct w; [exact Hws | constructor; assumption]. }
  rewrite List.Forall_forall in Hall. apply Hall.
Qed.

Lemma span_digits_spec (s d r : str) :
  span_digits s = (d, r) -> s = d ++ r /\ Forall (fun c => is_digit c = true) d.
Proof.
  revert d r. induction s as [| c t IH]; intros d r; simpl.
  - intros [= <- <-]. split; [reflexivity | constructor].
  - destruct (is_digit c) eqn:Ec.
    + destruct (span_digits t) as [d' r'] eqn:E. intros [= <- <-].
      destruct (IH d' r' eq_refl) as [-> Hd]. split; [reflexivity |].
      constructor; assumption.
    + intros [= <- <-]. split; [reflexivity | constructor].
Qed.

Lemma split_sign_spec (t body : str) (neg : bool) :
  split_sign t = (neg, body) ->
  t = body \/ exists c, numeral_char c = true /\ t = c :: body.
Proof.
  unfold split_sign. destruct t as [| c t']; [intros [= <- <-]; auto |].
  destruct (Ascii.eqb c "-") eqn:E1.
  - apply Ascii.eqb_eq in E1 as ->. intros [= <- <-]. right.
    exists "-"%char. split; reflexivity.
  - destruct (Ascii.eqb c "+") eqn:E2.
    + apply Ascii.eqb_eq in E2 as ->. intros [= <- <-]. right.
      exists "+"%char. split; reflexivity.
    + intros [= <- <-]. auto.
Qed.

Lemma is_digit_numeral_char (c : ascii) : is_digit c = true -> numeral_char c = true.
Proof. unfold numeral_char. intros ->. reflexivity. Qed.

Lemma digits_numeral_chars (d : str) :
  Forall (fun c => is_digit c = true) d -> Forall (fun c => numeral_char c = true) d.
Proof. intros H. eapply Forall_impl; [exact H |]. apply is_digit_numeral_char. Qed.

Lemma exponent_mark_numeral_char (c : ascii) :
  Ascii.eqb (lower c) "e" = true -> numeral_char c = true.
Proof.
  destruct c as [[] [] [] [] [] [] [] []]; vm_compute; congruence.
Qed.

Lemma numeral_char_underscore (c : ascii) :
  numeral_char c = true -> Ascii.eqb c "_" = false.
Proof.
  destruct c as [[] [] [] [] [] [] [] []]; vm_compute; congruence.
Qed.

Lemma lower_underscore (c : ascii) :
  Ascii.eqb (lower c) "_" = false -> Ascii.eqb c "_" = false.
Proof.
  destruct c as [[] [] [] [] [] [] [] []]; vm_compute; congruence.
Qed.

Lemma parse_exponent_chars (r : str) (e : Z) :
  parse_exponent r = Some e -> Forall (fun c => numeral_char c = true) r.
Proof.
  unfold parse_exponent. destruct r as [| c t]; [constructor |].
  destruct (Ascii.eqb (lower c) "e") eqn:Ec; [| discriminate].
  destruct (split_sign t) as [neg t'] eqn:Es.
  destruct (span_digits t') as [ds r'] eqn:Ed.
  destruct ds as [| d ds']; [discriminate |]. destruct r'; [| discriminate].
  intros _. apply span_digits_spec in Ed as [-> Hd]. rewrite app_nil_r in Es.
  constructor; [apply exponent_mark_numeral_char, Ec |].
  apply split_sign_spec in Es as [-> | (c' & Hc' & ->)].
  - apply digits_numeral_chars, Hd.
  - constructor; [exact Hc' | apply digits_numeral_chars, Hd].
Qed.

Lemma parse_decimal_chars (s : str) (v : N * Z) :
  parse_decimal s = Some v -> Forall (fun c => numeral_char c = true) s.
Proof.
  unfold parse_decimal. destruct (span_digits s) as [ip r1] eqn:E1.
  apply span_digits_spec in E1 as [-> Hip].
  destruct r1 as [| c t].
  - intros _. rewrite app_nil_r. apply digits_numeral_chars, Hip.
  - destruct (Ascii.eqb c ".") eqn:Ec.
    + destruct (span_digits t) as [fp r2] eqn:E2.
      apply span_digits_spec in E2 as [-> Hfp].
      destruct (ip ++ fp); [discriminate |].
      destruct (parse_exponent r2) eqn:Ee; [| discriminate]. intros _.
      apply parse_exponent_chars in Ee. apply Ascii.eqb_eq in Ec as ->.
      apply Forall_app. split; [apply digits_numeral_chars, Hip |].
      constructor; [reflexivity |].
      apply Forall_app. split; [apply digits_numeral_chars, Hfp | exact Ee].
    + destruct (ip ++ []); [discriminate |].
      destruct (parse_exponent (c :: t)) eqn:Ee; [| discriminate]. intros _.
      apply parse_exponent_chars in Ee.
      apply Forall_app. split; [apply digits_numeral_chars, Hip | exact Ee].
Qed.

Lemma str_eqb_eq (a b : str) : str_eqb a b = true -> a = b.
Proof.
  revert b. induction a as [| x a IH]; intros [| y b]; simpl; try discriminate.
  - reflexivity.
  - intros H. apply andb_true_iff in H as [Hx Hab].
    apply Ascii.eqb_eq in Hx as ->. f_equal. apply IH, Hab.
Qed.

Lemma lowered_no_underscore (s l : str) :
  map lower s = l ->
  Forall (fun c => Ascii.eqb c "_" = false) l ->
  Forall (fun c => Ascii.eqb c "_" = false) s.
Proof.
  intros <- H. induction s as [| c t IH]; [constructor |].
  inversion H as [| ? ? Hc Ht]; subst.
  constructor; [apply lower_underscore, Hc | apply IH, Ht].
Qed.

Lemma parse_inf_or_nan_chars (neg : bool) (s : str) (x : float) :
  parse_inf_or_nan neg s = Some x -> Forall (fun c => Ascii.eqb c "_" = false) s.
Proof.
  unfold parse_inf_or_nan.
  destruct (str_eqb (map lower s) (lit "inf")) eqn:E1.
  { intros _. apply str_eqb_eq in E1.
    apply (lowered_no_underscore _ _ E1). repeat constructor. }
  destruct (str_eqb (map lower s) (lit "infinity")) eqn:E2.
  { intros _. apply str_eqb_eq in E2.
    apply (lowered_no_underscore _ _ E2). repeat constructor. }
  destruct (str_eqb (map lower s) (lit "nan")) eqn:E3; [| discriminate].
  intros _. apply str_eqb_eq in E3.
  apply (lowered_no_underscore _ _ E3). repeat constructor.
Qed.

(** A literal holds no underscore. *)
Lemma parse_literal_no_underscore (t : str) (x : float) :
  parse_literal t = Some x -> Forall (fun c => Ascii.eqb c "_" = false) t.
Proof.
  unfold parse_literal. destruct (split_sign t) as [neg body] eqn:Es.
  intros H.
  assert (Hbody : Forall (fun c => Ascii.eqb c "_" = false) body).
  { destruct (parse_decimal body) as [[m e] |] eqn:Ed.
    - apply parse_decimal_chars in Ed.
      eapply Forall_impl; [exact Ed |]. apply numeral_char_underscore.
    - eapply parse_inf_or_nan_chars, H. }
  apply split_sign_spec in Es as [-> | (c & Hc & ->)]; [exact Hbody |].
  constructor; [apply numeral_char_underscore, Hc | exact Hbody].
Qed.

(** On a field without whitespace, NumPy accepts no more than
    [float] does, and reads the same value. *)
Lemma numpy_float_python (tok : str) (x : float) :
  Forall (fun c => is_space c = false) tok ->
  numpy_float tok = Some x -> parse_float tok = Some x.
Proof.
  intros Hs H. rewrite numpy_float_token in H by exact Hs.
  rewrite parse_float_clean; [exact H | exact Hs |].
  eapply parse_literal_no_underscore, H.
Qed.

Lemma numpy_float_rejects (tok : str) :
  Forall (fun c => is_space c = false) tok ->
  parse_float tok = None -> numpy_float tok = None.
Proof.
  intros Hs Hnone. destruct (numpy_float tok) as [x |] eqn:E; [| reflexivity].
  apply (numpy_float_python _ _ Hs) in E. congruence.
Qed.

Lemma to_float32_raises (tok : str) (e : exn) :
  to_float32 tok = Raise e -> e = ValueError.
Proof.
  unfold to_float32.
  destruct (numpy_float tok); [discriminate | congruence].
Qed.

Lemma traverse_Raise {A B : Type} (f : A -> result B) (l : list A) (e : exn) :
  traverse f l = Raise e -> exists a, In a l /\ f a = Raise e.
Proof.
  induction l as [| a t IH]; simpl; [discriminate |].
  destruct (f a) as [b | e'] eqn:E; simpl.
  - destruct (traverse f t) as [bs | e'']; simpl; [discriminate |].
    intros [= ->]. destruct (IH eq_refl) as (a' & Hin & Ha'). eauto.
  - intros [= ->]. eauto.
Qed.

(** When every failure of [f] is the exception [e], a list with a
    failing element makes [traverse] raise [e]. *)
Lemma traverse_raises {A B : Type} (f : A -> result B) (l : list A) (e : exn) (a : A) :
  (forall a' e', f a' = Raise e' -> e' = e) ->
  In a l -> raises (f a) ->
  traverse f l = Raise e.
Proof.
  intros Hu Hin Ha.
  destruct (traverse f l) as [bs | e'] eqn:E.
  - exfalso. revert bs E. induction l as [| a0 t IH]; intros bs E; [destruct Hin |].
    simpl in E. bind_inv E b Hb. bind_inv E bs' Hbs.
    destruct Hin as [-> | Hin]; [rewrite Hb in Ha; exact Ha | eauto].
  - apply traverse_Raise in E as (a' & _ & E). f_equal. eapply Hu, E.
Qed.

Lemma loadtxt_bad_field (lines : list str) (l tok : str) :
  In l lines ->
  In tok (words (before_comment l)) ->
  parse_float tok = None ->
  loadtxt lines = Raise ValueError.
Proof.
  intros Hl Htok Hnone. unfold loadtxt.
  assert (Hrow : In (words (before_comment l)) (field_rows lines)).
  { unfold field_rows. apply filter_In. split.
    - apply in_map_iff. exists l. auto.
    - destruct (words (before_comment l)); [destruct Htok | reflexivity]. }
  destruct (field_rows lines) as [| first rest]; [destruct Hrow |].
  cbv zeta.
  rewrite (traverse_raises _ _ ValueError (words (before_comment l))); [reflexivity | | exact Hrow |].
  - intros row e' E. apply traverse_Raise in E as (t & _ & E).
    eapply to_float32_raises, E.
  - rewrite (traverse_raises _ _ ValueError tok); [exact I | | exact Htok |].
    + apply to_float32_raises.
    + unfold to_float32.
      rewrite (numpy_float_rejects tok (words_no_space _ _ Htok) Hnone). exact I.
Qed.

Lemma find_header_end_marker (header : list str) (e : str) (rest : list str) (i : nat) :
  Forall not_end_header header ->
  str_eqb (strip e) (lit "end_header") = true ->
  find_header_end (header ++ e :: rest) i = (i + length header + 1)%nat.
Proof.
  intros H He. revert i. induction H as [| l t Hl _ IH]; intros i.
  - cbn [app find_header_end]. rewrite He. simpl. lia.
  - cbn [app]. rewrite find_header_end_skip by exact Hl.
    rewrite IH. simpl. lia.
Qed.

Lemma traverse_total {A B : Type} (f : A -> result B) (l : list A) :
  Forall (fun a => exists b, f a = Ok b) l -> exists bs, traverse f l = Ok bs.
Proof.
  induction 1 as [| a t [b Hb] _ [bs IH]]; simpl.
  - eauto.
  - rewrite Hb, IH. simpl. eauto.
Qed.

Lemma traverse_singleton {A B : Type} (f : A -> result B) (a : A) :
  traverse f [a] = do b <- f a; Ok [b].
Proof. simpl. destruct (f a); reflexivity. Qed.

(** A single row is squeezed to fewer than two dimensions. *)
Lemma loadtxt_single_row (v : str) :
  vertex_text v ->
  exists arr,
    loadtxt [v] = Ok arr
    /\ (length (shape arr) < 2)%nat
    /\ column arr 0 = Raise IndexError.
Proof.
  intros [Hne Hall]. unfold loadtxt, field_rows. cbn [map List.filter].
  destruct (words (before_comment v)) as [| t ts] eqn:E; [contradiction |].
  cbn [is_nil negb]. cbv zeta.
  destruct (traverse_total to_float32 (t :: ts)) as [vals Hvals].
  { eapply Forall_impl; [exact Hall |]. intros tok [x Hx].
    exists (float32 x). unfold to_float32. rewrite Hx. reflexivity. }
  rewrite traverse_singleton, Hvals. cbn [bind same_length forallb].
  unfold squeeze.
  destruct (length (t :: ts)) as [| [| n]]; eexists; repeat split; simpl; lia.
Qed.

(** Plotting succeeds only on a two-dimensional table. *)
Lemma plot_lines_rows (lines : list str) (sc : scatter) :
  plot_lines lines = Ok sc -> (2 <= length (field_rows (ply_body lines)))%nat.
Proof.
  unfold plot_lines. cbv zeta. fold (ply_body lines). intros H.
  bind_inv H arr Hp. bind_inv H x Hx.
  destruct arr as [? | ? | k rows]; try discriminate.
  unfold loadtxt in Hp.
  destruct (field_rows (ply_body lines)) as [| first rest]; [discriminate |].
  cbv zeta in Hp. bind_inv Hp vals Hvals.
  destruct (same_length (length first) rest); [| discriminate].
  apply traverse_length in Hvals.
  destruct rest as [| second rest']; [| simpl; lia].
  destruct vals as [| v1 [| v2 vs]]; try discriminate.
  unfold squeeze in Hp. destruct (length first) as [| [| n]]; discriminate.
Qed.

(** * The properties of the specification *)

(** ** C1 *)

(** C1 (header/body consistency for both converters, including N=0
    and N=1).  The vertex-only converter writes nothing for a map of
    one point or of none: [genfromtxt] squeezes a single row to a
    one-dimensional array (and gives an empty one-dimensional array for
    no rows), so [coords[:, 0]] raises [IndexError].  The trajectory
    converter does write a consistent file for one pose and for none. *)
Theorem C1_pointcloud_single_row_raises :
  genfromtxt one_point_csv (lit ", ") 1
  = Ok (Array1 [float_of_Z 1; float_of_Z 2; float_of_Z 3])
  /\ pointcloud_ply one_point_csv = Raise IndexError
  /\ genfromtxt no_point_csv (lit ", ") 1 = Ok (Array1 [])
  /\ pointcloud_ply no_point_csv = Raise IndexError
  /\ trajectory_ply (lit "img.png 1 0 0 10 0 1 0 20 0 0 1 30")
     = Ok (unlines (trajectory_head 1
                      ++ [lit "10.000000 20.000000 30.000000 144 238 144"]))
  /\ trajectory_ply [] = Ok (unlines (trajectory_head 0)).
Proof.
  repeat split; vm_compute; reflexivity.
Qed.

(** ** C2 *)




(** ** C3 *)




(** ** C4 *)

(** C4, refuted: no trajectory input makes the converter write a
    malformed vertex count. *)
Lemma C4_no_malformed_vertex_count : ~ malformed_vertex_count.
Proof.
  intros (content & out & H & Hbad).
  apply trajectory_header_matches_body in H as (_ & H & _).
  rewrite H in Hbad. discriminate.
Qed.

(** C4, amended: the header format is applied to the shape of a
    one-dimensional array, the 1-tuple [(N,)], whose single element is
    the argument of [%d]; so for every input the converter accepts, the
    header line reads ["element vertex N"] with [N] the number of input
    lines in decimal, which is also the number of body lines. *)
Theorem C4_shape_tuple_formats_count (content out : str) :
  trajectory_ply content = Ok out ->
  (forall x : list float,
      arguments (Tuple (map (fun d => VInt (Z.of_nat d)) (shape (Array1 x))))
      = [VInt (Z.of_nat (length x))])
  /\ readlines out !! 2%nat
     = Some (with_NL (lit "element vertex "
                        ++ dec (N.of_nat (length (readlines content)))))
  /\ declared_vertices (readlines out)
     = Some (N.of_nat (length (readlines content)))
  /\ length (ply_body (readlines out)) = length (readlines content).
Proof.
  intros H. split; [reflexivity |].
  pose proof (trajectory_header_matches_body _ _ H) as (_ & Hd & Hb).
  split; [| split; assumption].
  apply trajectory_ply_inv in H as (x & y & z & _ & Hlen & ->).
  rewrite trajectory_output_lines, <- Hlen. reflexivity.
Qed.

Lemma C4_shape_tuple_formats_count_witness :
  readlines (unlines (trajectory_head 1
                        ++ [lit "10.000000 20.000000 30.000000 144 238 144"]))
    !! 2%nat
  = Some (with_NL (lit "element vertex 1")).
Proof.
  pose proof (C4_shape_tuple_formats_count
                (lit "img.png 1 0 0 10 0 1 0 20 0 0 1 30")
                (unlines (trajectory_head 1
                            ++ [lit "10.000000 20.000000 30.000000 144 238 144"]))
                ltac:(vm_compute; reflexivity)) as H.
  exact (proj1 (proj2 H)).
Defined.

(** ** C5 *)

(** C5, refuted at [non_numeric_csv]: the second data row holds the
    non-numeric field ["abc"] (so only two numeric fields), yet the
    converter succeeds; [genfromtxt] reads the field as NaN and the
    file shows ["nan"]. *)
Lemma C5_non_numeric_field_accepted :
  data_rows non_numeric_csv (lit ", ") 1
  = [ [lit "1.0"; lit "2.0"; lit "3.0"]; [lit "4.5"; lit "abc"; lit "6.0"] ]
  /\ python_float (lit "abc") = Raise ValueError
  /\ pointcloud_ply non_numeric_csv
     = Ok (unlines (pointcloud_head 2 ++ [lit "1.000000 2.000000 3.000000";
                                          lit "4.500000 nan 6.000000"])).
Proof.
  repeat split; vm_compute; reflexivity.
Qed.

(** C5, amended: the converter fails, with [IndexError] or
    [ValueError], whenever a data row of the input has fewer than
    three delimiter-separated fields.  (A field that is not numeric
    is not an error: it is read as NaN.) *)
Theorem C5_short_row_raises (content : str) (row : list str) :
  In row (data_rows content (lit ", ") 1) ->
  (length row < 3)%nat ->
  parse_failure (pointcloud_ply content).
Proof.
  intros Hin Hshort. unfold parse_failure, pointcloud_ply.
  destruct (genfromtxt content (lit ", ") 1) as [[x | x | k rows] | e] eqn:Hg.
  - left. reflexivity.
  - left. reflexivity.
  - apply genfromtxt_2d in Hg as (_ & _ & _ & Hall).
    rewrite List.Forall_forall in Hall. apply Hall in Hin.
    destruct k as [| [| [| k]]]; [left; reflexivity .. | lia].
  - apply genfromtxt_raises in Hg as ->. right. reflexivity.
Qed.

Lemma C5_short_row_raises_witness : parse_failure (pointcloud_ply short_row_csv).
Proof.
  apply (C5_short_row_raises short_row_csv [lit "1.0"; lit "2.0"]).
  - vm_compute. left. reflexivity.
  - vm_compute. lia.
Defined.

(** ** C6 *)

(** C6, refuted at [headerless_text]: no line is ["end_header"], yet
    the viewer does not fail; it plots the two rows. *)
Lemma C6_headerless_file_plots :
  Forall not_end_header (readlines headerless_text)
  /\ plot_text headerless_text
     = Ok (Scatter (map_array float32 (Array1 [float_of_Z 1; float_of_Z 4]))
                   (map_array float32 (Array1 [float_of_Z 2; float_of_Z 5]))
                   (map_array float32 (Array1 [float_of_Z 3; float_of_Z 6]))
                   (map_array float32 (Array1 [float_of_Z 3; float_of_Z 6]))).
Proof.
  split; [| vm_compute; reflexivity].
  change (readlines headerless_text)
    with [with_NL (lit "1 2 3"); with_NL (lit "4 5 6")].
  repeat constructor.
Qed.

(** C6, amended: the viewer makes no check for the marker.  When no
    line is ["end_header"], [header_end] stays 0 and the whole file is
    parsed as the vertex body; the call then fails only where that
    parse or the column extraction fails, and it does fail, with
    [ValueError], whenever some field of some line is not a float
    literal (as the header lines of a PLY file are not). *)
Theorem C6_no_marker_reads_whole_file (lines : list str) :
  Forall not_end_header lines ->
  find_header_end lines 0 = 0%nat
  /\ ply_body lines = lines
  /\ plot_lines lines
     = (do points <- loadtxt lines;
        do x <- column points 0;
        do y <- column points 1;
        do z <- column points 2;
        Ok (Scatter x y z z))
  /\ (forall l tok,
        In l lines -> In tok (words (before_comment l)) ->
        parse_float tok = None ->
        plot_lines lines = Raise ValueError).
Proof.
  intros H. pose proof (find_header_end_none lines 0 H) as H0.
  assert (Hplot : plot_lines lines
                  = (do points <- loadtxt lines;
                     do x <- column points 0;
                     do y <- column points 1;
                     do z <- column points 2;
                     Ok (Scatter x y z z))).
  { unfold plot_lines. cbv zeta. rewrite H0. reflexivity. }
  split; [exact H0 |]. split; [unfold ply_body; rewrite H0; reflexivity |].
  split; [exact Hplot |].
  intros l tok Hl Htok Hnone. rewrite Hplot.
  rewrite (loadtxt_bad_field _ _ _ Hl Htok Hnone). reflexivity.
Qed.

Lemma C6_no_marker_reads_whole_file_witness :
  plot_lines [lit "ply"; lit "format ascii 1.0"; lit "1 2 3"] = Raise ValueError.
Proof.
  refine (proj2 (proj2 (proj2
            (C6_no_marker_reads_whole_file
               [lit "ply"; lit "format ascii 1.0"; lit "1 2 3"] _)))
            (lit "ply") (lit "ply") _ _ _).
  - repeat constructor.
  - vm_compute. left. reflexivity.
  - vm_compute. left. reflexivity.
  - vm_compute. reflexivity.
Defined.

(** ** C7 *)

(** C7, refuted at [double_blank_line]: the line has twelve
    whitespace-separated tokens, but two blanks stand before the last
    one, so [split(" ")] yields thirteen fields (one empty) and the
    converter succeeds with the point (10, 20, 30). *)
Lemma C7_twelve_tokens_accepted :
  length (words double_blank_line) = 12%nat
  /\ length (split (lit " ") (strip double_blank_line)) = 13%nat
  /\ trajectory_ply double_blank_line
     = Ok (unlines (trajectory_head 1
                      ++ [lit "10.000000 20.000000 30.000000 144 238 144"])).
Proof.
  repeat split; vm_compute; reflexivity.
Qed.

(** C7, amended: the converter fails, with [IndexError] or
    [ValueError], whenever some input line, stripped and split at
    single blanks, has fewer than 13 fields (empty fields between
    consecutive blanks count) or a field 4, 8 or 12 that [float]
    rejects. *)
Theorem C7_bad_line_raises (content line : str) :
  In line (readlines content) ->
  bad_pose_line line ->
  parse_failure (trajectory_ply content).
Proof.
  intros Hin Hbad. unfold trajectory_ply.
  destruct (trajectory_loop_bad_line _ _ [] [] [] Hin Hbad) as [-> | ->];
    [left | right]; reflexivity.
Qed.

Lemma C7_bad_line_raises_witness :
  parse_failure (trajectory_ply (lit "img.png 1 0 0 10 0 1 0 20 0 0 1")).
Proof.
  apply (C7_bad_line_raises (lit "img.png 1 0 0 10 0 1 0 20 0 0 1")
                            (lit "img.png 1 0 0 10 0 1 0 20 0 0 1")).
  - vm_compute. left. reflexivity.
  - left. vm_compute. lia.
Defined.

(** ** C8 *)

(** C8: every body line the trajectory converter writes consists of
    the three coordinates printed with [%f] followed by the three
    integers 144, 238 and 144; the colour columns are the floats
    144.0, 238.0 and 144.0. *)
Theorem C8_constant_colour (content out : str) :
  trajectory_ply content = Ok out ->
  exists x y z,
    trajectory_loop (readlines content) [] [] [] = Ok (x, y, z)
    /\ ply_body (readlines out)
       = map (fun p => with_NL (fmt_f p.1.1 ++ lit " " ++ fmt_f p.1.2 ++ lit " "
                                  ++ fmt_f p.2 ++ lit " 144 238 144"))
             (points x y z)
    /\ map (fun l => words l) (ply_body (readlines out))
       = map (fun p => [fmt_f p.1.1; fmt_f p.1.2; fmt_f p.2;
                        lit "144"; lit "238"; lit "144"])
             (points x y z)
    /\ (colour 144, colour 238)
       = (float_of_Z 144, float_of_Z 238).
Proof.
  intros H. apply trajectory_ply_inv in H as (x & y & z & Hloop & Hlen & ->).
  exists x, y, z. split; [exact Hloop |].
  rewrite trajectory_output_lines, trajectory_lines_body.
  rewrite !map_map. split; [reflexivity |]. split; [| reflexivity].
  apply map_ext. intros [[a b] c]. unfold point_row, trajectory_row, with_NL.
  cbn [fst snd]. rewrite <- !app_assoc. cbn [lit list_ascii_of_string app].
  rewrite !words_cons;
    first [ reflexivity | apply fmt_f_nonempty | apply fmt_f_no_space
          | discriminate | repeat constructor ].
Qed.

Lemma C8_constant_colour_witness :
  exists x y z,
    trajectory_loop (readlines (lit "img.png 1 0 0 10 0 1 0 20 0 0 1 30")) [] [] []
    = Ok (x, y, z)
    /\ ply_body (readlines (unlines (trajectory_head 1
                   ++ [lit "10.000000 20.000000 30.000000 144 238 144"])))
       = map (fun p => with_NL (fmt_f p.1.1 ++ lit " " ++ fmt_f p.1.2 ++ lit " "
                                  ++ fmt_f p.2 ++ lit " 144 238 144"))
             (points x y z)
    /\ map (fun l => words l)
           (ply_body (readlines (unlines (trajectory_head 1
                   ++ [lit "10.000000 20.000000 30.000000 144 238 144"]))))
       = map (fun p => [fmt_f p.1.1; fmt_f p.1.2; fmt_f p.2;
                        lit "144"; lit "238"; lit "144"])
             (points x y z)
    /\ (colour 144, colour 238)
       = (float_of_Z 144, float_of_Z 238).
Proof.
  apply (C8_constant_colour (lit "img.png 1 0 0 10 0 1 0 20 0 0 1 30")).
  vm_compute. reflexivity.
Defined.

(** ** C9 *)



(** ** C10 *)

(** C10: on a PLY file whose body after the ["end_header"] line is a
    single vertex line (fields that [loadtxt] converts), [loadtxt]
    returns an array of fewer than two dimensions, the indexing [points[:, 0]] raises [IndexError], and
    so does the viewer; whenever the viewer reaches the plot, the body
    holds two or more vertex lines. *)
Theorem C10_single_vertex_body_raises (header : list str) (e v : str) :
  Forall not_end_header header ->
  str_eqb (strip e) (lit "end_header") = true ->
  vertex_text v ->
  ply_body (header ++ [e; v]) = [v]
  /\ (exists arr,
         loadtxt [v] = Ok arr
         /\ (length (shape arr) < 2)%nat
         /\ column arr 0 = Raise IndexError)
  /\ plot_lines (header ++ [e; v]) = Raise IndexError
  /\ (forall lines sc,
         plot_lines lines = Ok sc ->
         (2 <= length (field_rows (ply_body lines)))%nat).
Proof.
  intros Hh He Hv.
  assert (Hbody : ply_body (header ++ [e; v]) = [v]).
  { unfold ply_body. rewrite find_header_end_marker by assumption.
    replace (0 + length header + 1)%nat with (length (header ++ [e])) 
      by (rewrite length_app; simpl; lia).
    change (header ++ [e; v]) with (header ++ [e] ++ [v]).
    rewrite app_assoc. apply drop_app_length. }
  destruct (loadtxt_single_row v Hv) as (arr & Hp & Hdim & Hcol).
  split; [exact Hbody |]. split; [eauto |]. split; [| apply plot_lines_rows].
  unfold plot_lines. cbv zeta. fold (ply_body (header ++ [e; v])).
  rewrite Hbody, Hp. cbn [bind]. rewrite Hcol. reflexivity.
Qed.

Lemma C10_single_vertex_body_raises_witness :
  plot_lines (map with_NL (pointcloud_head 1 ++ [lit "1.000000 2.000000 3.000000"]))
  = Raise IndexError.
Proof.
  refine (proj1 (proj2 (proj2
            (C10_single_vertex_body_raises
               (map with_NL [ lit "ply"; lit "format ascii 1.0"; vertex_line 1;
                              lit "property float x"; lit "property float y";
                              lit "property float z" ])
               (with_NL (lit "end_header"))
               (with_NL (lit "1.000000 2.000000 3.000000")) _ _ _)))).
  - repeat constructor.
  - vm_compute. reflexivity.
  - split.
    + vm_compute. discriminate.
    + vm_compute. repeat constructor; eexists; reflexivity.
Defined.

(** * Further properties of the code *)

(** ** The vertex-only converter *)


Lemma readlines_first_line (h rest : str) :
  Forall (fun c => no_break c = true) h ->
  readlines (h ++ NL :: rest) = with_NL h :: readlines rest.
Proof.
  intros H. unfold readlines.
  rewrite universal_newlines_line, keepends_line by exact H. reflexivity.
Qed.


(** X2: in every file the vertex-only converter writes, the header
    declares the number of data rows of the input, and the body holds
    one line per data row, in the order of the input: the row's first
    three fields printed with [%f] (a field [float] rejects printed as
    ["nan"]).  Fields after the third are not written. *)
Theorem X2_pointcloud_rows_follow_input (content out : str) :
  pointcloud_ply content = Ok out ->
  declared_vertices (readlines out)
  = Some (N.of_nat (length (data_rows content (lit ", ") 1)))
  /\ ply_body (readlines out)
     = map (fun fields =>
              with_NL (fmt_f (loose_float (nth 0 fields [])) ++ lit " "
                         ++ fmt_f (loose_float (nth 1 fields [])) ++ lit " "
                         ++ fmt_f (loose_float (nth 2 fields []))))
           (data_rows content (lit ", ") 1).
Proof.
  intros H. apply pointcloud_ply_inv in H as (k & rows & Hg & Hk & ->).
  apply genfromtxt_2d in Hg as (_ & _ & -> & _).
  rewrite pointcloud_output_lines. unfold declared_vertices.
  rewrite pointcloud_lines_declared, pointcloud_lines_body, undec_dec.
  rewrite !length_map. split; [reflexivity |].
  rewrite !map_map. apply map_ext. intros fields. unfold pointcloud_row.
  change nan with (loose_float []). rewrite !map_nth. reflexivity.
Qed.

Lemma X2_pointcloud_rows_follow_input_witness :
  declared_vertices (readlines two_point_ply)
  = Some (N.of_nat (length (data_rows two_point_csv (lit ", ") 1)))
  /\ ply_body (readlines two_point_ply)
     = map (fun fields =>
              with_NL (fmt_f (loose_float (nth 0 fields [])) ++ lit " "
                         ++ fmt_f (loose_float (nth 1 fields [])) ++ lit " "
                         ++ fmt_f (loose_float (nth 2 fields []))))
           (data_rows two_point_csv (lit ", ") 1).
Proof.
  apply (X2_pointcloud_rows_follow_input two_point_csv two_point_ply).
  vm_compute. reflexivity.
Defined.

(** X3: the first line of the map-point file is skipped whatever it
    holds: two inputs that differ only in their first line give the
    same result. *)
Theorem X3_first_line_is_skipped (h1 h2 rest : str) :
  Forall (fun c => no_break c = true) h1 ->
  Forall (fun c => no_break c = true) h2 ->
  pointcloud_ply (h1 ++ NL :: rest) = pointcloud_ply (h2 ++ NL :: rest).
Proof.
  intros H1 H2.
  assert (Hrows : data_rows (h1 ++ NL :: rest) (lit ", ") 1
                  = data_rows (h2 ++ NL :: rest) (lit ", ") 1).
  { unfold data_rows. rewrite !readlines_first_line by assumption. reflexivity. }
  unfold pointcloud_ply, genfromtxt. rewrite Hrows. reflexivity.
Qed.

Lemma X3_first_line_is_skipped_witness :
  pointcloud_ply two_point_csv = pointcloud_ply renamed_columns_csv.
Proof.
  apply (X3_first_line_is_skipped
           (lit "pos_x, pos_y, pos_z") (lit "x, y, z")
           (text_lines [ "1.0, 2.0, 3.0"; "4.5, 5.0, 6.25"; "" ]%string)).
  - repeat constructor.
  - repeat constructor.
Defined.

(** ** The trajectory converter *)

Lemma points_map {A : Type} (f g h : A -> float) (d : A) (l : list A) :
  f d = nan -> g d = nan -> h d = nan ->
  points (map f l) (map g l) (map h l) = map (fun a => (f a, g a, h a)) l.
Proof.
  intros Hf Hg Hh. unfold points. rewrite length_map.
  rewrite <- (map_seq_nth (fun a => (f a, g a, h a)) l d).
  apply map_ext. intros i.
  rewrite <- (map_nth f l d i), <- (map_nth g l d i), <- (map_nth h l d i).
  rewrite Hf, Hg, Hh. reflexivity.
Qed.

Lemma index_lookup {A : Type} (l : list A) (i : nat) (a : A) :
  l !! i = Some a -> index l i = Ok a.
Proof. unfold index. intros ->. reflexivity. Qed.

Lemma python_float_parse (t : str) (v : float) :
  parse_float t = Some v -> python_float t = Ok v.
Proof. unfold python_float. intros ->. reflexivity. Qed.

Lemma loose_float_parse (t : str) (v : float) :
  parse_float t = Some v -> loose_float t = v.
Proof. unfold loose_float. intros ->. reflexivity. Qed.

(** On lines it can process, the loop appends the point of each
    line, in order. *)
Lemma trajectory_loop_good (lines : list str) (x y z : list float) :
  Forall good_pose_line lines ->
  trajectory_loop lines x y z
  = Ok (x ++ map (fun l => (pose_point l).1.1) lines,
        y ++ map (fun l => (pose_point l).1.2) lines,
        z ++ map (fun l => (pose_point l).2) lines).
Proof.
  intros H. revert x y z.
  induction H as [| l rest Hl _ IH]; intros x y z.
  - simpl. rewrite !app_nil_r. reflexivity.
  - cbn [trajectory_loop]. cbv zeta.
    destruct Hl as (c4 & c8 & c12 & tx & ty & tz & E4 & E8 & E12 & F4 & F8 & F12).
    rewrite (index_lookup _ _ _ E4). cbn [bind].
    rewrite (python_float_parse _ _ F4). cbn [bind].
    rewrite (index_lookup _ _ _ E8). cbn [bind].
    rewrite (python_float_parse _ _ F8). cbn [bind].
    rewrite (index_lookup _ _ _ E12). cbn [bind].
    rewrite (python_float_parse _ _ F12). cbn [bind].
    rewrite IH. rewrite <- !app_assoc. cbn [map app].
    unfold pose_point. cbn [fst snd].
    rewrite (nth_lookup_Some _ _ _ _ E4), (nth_lookup_Some _ _ _ _ E8),
      (nth_lookup_Some _ _ _ _ E12).
    rewrite (loose_float_parse _ _ F4), (loose_float_parse _ _ F8),
      (loose_float_parse _ _ F12).
    reflexivity.
Qed.

Lemma trajectory_loop_Ok_good (lines : list str) (x y z : list float)
      (r : list float * list float * list float) :
  trajectory_loop lines x y z = Ok r -> Forall good_pose_line lines.
Proof.
  revert x y z. induction lines as [| l rest IH]; intros x y z H; [constructor |].
  cbn [trajectory_loop] in H. cbv zeta in H.
  bind_inv H c4 E4. bind_inv H tx F4. bind_inv H c8 E8. bind_inv H ty F8.
  bind_inv H c12 E12. bind_inv H tz F12.
  constructor; [| eapply IH, H].
  exists c4, c8, c12, tx, ty, tz.
  repeat split; first [apply index_Ok; assumption | apply python_float_Ok; assumption].
Qed.

(** X4: the trajectory converter writes a file exactly when every
    input line, stripped and split at single blanks, has fields 4, 8
    and 12 and [float] accepts the three; nothing else in a line is
    looked at (the image path and the rotation entries may be any
    text), and no later step fails. *)
Theorem X4_trajectory_succeeds_iff (content : str) :
  (exists out, trajectory_ply content = Ok out)
  <-> Forall good_pose_line (readlines content).
Proof.
  split.
  - intros [out H]. apply trajectory_ply_inv in H as (x & y & z & Hloop & _).
    eapply trajectory_loop_Ok_good, Hloop.
  - intros H. eexists.
    apply trajectory_ply_points. apply (trajectory_loop_good _ [] [] [] H).
Qed.

(** X5: in every file the trajectory converter writes, the body holds
    one line per input line, in the order of the input: the fields 4,
    8 and 12 of that line printed with [%f], then 144, 238 and 144. *)
Theorem X5_trajectory_rows_follow_input (content out : str) :
  trajectory_ply content = Ok out ->
  ply_body (readlines out)
  = map (fun line =>
           with_NL (fmt_f (pose_point line).1.1 ++ lit " "
                      ++ fmt_f (pose_point line).1.2 ++ lit " "
                      ++ fmt_f (pose_point line).2 ++ lit " 144 238 144"))
        (readlines content).
Proof.
  intros H. apply trajectory_ply_inv in H as (x & y & z & Hloop & _ & ->).
  pose proof (trajectory_loop_Ok_good _ _ _ _ _ Hloop) as Hgood.
  rewrite (trajectory_loop_good _ [] [] [] Hgood) in Hloop.
  injection Hloop as <- <- <-. cbn [app].
  rewrite trajectory_output_lines, trajectory_lines_body.
  rewrite (points_map (A:=str) _ _ _ []) by reflexivity.
  rewrite !map_map. reflexivity.
Qed.

Lemma X5_trajectory_rows_follow_input_witness :
  ply_body (readlines two_pose_ply)
  = map (fun line =>
           with_NL (fmt_f (pose_point line).1.1 ++ lit " "
                      ++ fmt_f (pose_point line).1.2 ++ lit " "
                      ++ fmt_f (pose_point line).2 ++ lit " 144 238 144"))
        (readlines two_pose_text).
Proof.
  apply (X5_trajectory_rows_follow_input two_pose_text two_pose_ply).
  vm_compute. reflexivity.
Defined.

(** ** The viewer *)

Lemma ply_body_marker (header : list str) (e : str) (body : list str) :
  Forall not_end_header header ->
  str_eqb (strip e) (lit "end_header") = true ->
  ply_body (header ++ e :: body) = body.
Proof.
  intros Hh He. unfold ply_body. rewrite find_header_end_marker by assumption.
  replace (0 + length header + 1)%nat with (length (header ++ [e]))
    by (rewrite length_app; simpl; lia).
  change (header ++ e :: body) with (header ++ [e] ++ body).
  rewrite app_assoc. apply drop_app_length.
Qed.

(** X6: the viewer reads the lines after the first line whose
    stripped text is ["end_header"] and nothing else: the header lines
    before it, and so the vertex count they declare, have no effect on
    the result, and a later ["end_header"] line is body. *)
Theorem X6_viewer_reads_after_first_marker (header : list str) (e : str)
        (body : list str) :
  Forall not_end_header header ->
  str_eqb (strip e) (lit "end_header") = true ->
  ply_body (header ++ e :: body) = body
  /\ plot_lines (header ++ e :: body)
     = (do points <- loadtxt body;
        do x <- column points 0;
        do y <- column points 1;
        do z <- column points 2;
        Ok (Scatter x y z z)).
Proof.
  intros Hh He. pose proof (ply_body_marker header e body Hh He) as Hb.
  split; [exact Hb |].
  unfold plot_lines. cbv zeta. fold (ply_body (header ++ e :: body)).
  rewrite Hb. reflexivity.
Qed.

Lemma X6_viewer_reads_after_first_marker_witness :
  ply_body (map with_NL [lit "ply"; lit "element vertex 7"; lit "end_header";
                         lit "1 2 3"; lit "4 5 6"])
  = map with_NL [lit "1 2 3"; lit "4 5 6"]
  /\ plot_lines (map with_NL [lit "ply"; lit "element vertex 7"; lit "end_header";
                              lit "1 2 3"; lit "4 5 6"])
     = (do points <- loadtxt (map with_NL [lit "1 2 3"; lit "4 5 6"]);
        do x <- column points 0;
        do y <- column points 1;
        do z <- column points 2;
        Ok (Scatter x y z z)).
Proof.
  apply (X6_viewer_reads_after_first_marker
           (map with_NL [lit "ply"; lit "element vertex 7"])
           (with_NL (lit "end_header"))
           (map with_NL [lit "1 2 3"; lit "4 5 6"])).
  - repeat constructor.
  - vm_compute. reflexivity.
Defined.

Lemma traverse_Ok_Forall {A B : Type} (f : A -> result B) (l : list A) (bs : list B) :
  traverse f l = Ok bs -> Forall (fun a => exists b, f a = Ok b) l.
Proof.
  revert bs. induction l as [| a t IH]; intros bs H; [constructor |].
  simpl in H. bind_inv H b Hb. bind_inv H bs' Hbs.
  constructor; [eauto | eapply IH, Hbs].
Qed.

Lemma to_float32_parse (tok : str) (x : float) :
  numpy_float tok = Some x -> to_float32 tok = Ok (float32 (numpy_value tok)).
Proof.
  intros H. unfold to_float32, numpy_value. rewrite H. reflexivity.
Qed.

Lemma to_float32_Ok (tok : str) (v : float) :
  to_float32 tok = Ok v -> exists x, numpy_float tok = Some x.
Proof.
  unfold to_float32.
  destruct (numpy_float tok) as [x |]; [eauto | discriminate].
Qed.

Lemma traverse_to_float32 (rows : list (list str)) :
  Forall (Forall (fun t => exists x, numpy_float t = Some x)) rows ->
  traverse (traverse to_float32) rows
  = Ok (map (map (fun t => float32 (numpy_value t))) rows).
Proof.
  intros H. apply traverse_map_ok.
  eapply Forall_impl; [exact H |]. intros r Hr. simpl.
  apply traverse_map_ok.
  eapply Forall_impl; [exact Hr |]. intros t [x Hx]. simpl.
  apply (to_float32_parse _ _ Hx).
Qed.

(** [loadtxt] on a numeric table gives the table of the converted
    fields. *)
Lemma loadtxt_numeric_table (lines : list str) (k : nat) :
  numeric_table k (field_rows lines) ->
  k <> 1%nat ->
  loadtxt lines
  = Ok (Array2 k (map (map (fun t => float32 (numpy_value t))) (field_rows lines))).
Proof.
  intros (Hn & Hall & Hnum) Hk. unfold loadtxt.
  destruct (field_rows lines) as [| first [| second rest]]; simpl in Hn; try lia.
  cbv zeta. rewrite (traverse_to_float32 _ Hnum). cbn [bind].
  inversion Hall as [| ? ? Hfirst Hrest]; subst.
  apply same_length_Forall in Hrest. rewrite Hrest.
  simpl map. unfold squeeze.
  destruct (length first) as [| [| n]]; [reflexivity | contradiction | reflexivity].
Qed.

Lemma loadtxt_Array2 (lines : list str) (k : nat) (rows : list (list float)) :
  loadtxt lines = Ok (Array2 k rows) ->
  numeric_table k (field_rows lines) /\ k <> 1%nat.
Proof.
  unfold loadtxt, numeric_table.
  destruct (field_rows lines) as [| first rest] eqn:E; [discriminate |].
  cbv zeta. intros H. bind_inv H vals Hvals.
  destruct (same_length (length first) rest) eqn:Hlen; [| discriminate].
  apply same_length_Forall in Hlen.
  assert (Hnum : Forall (Forall (fun t => exists x, numpy_float t = Some x))
                        (first :: rest)).
  { apply traverse_Ok_Forall in Hvals.
    eapply Forall_impl; [exact Hvals |]. intros r [bs Hr]. simpl.
    apply traverse_Ok_Forall in Hr.
    eapply Forall_impl; [exact Hr |]. intros t [b Hb]. simpl.
    eapply to_float32_Ok, Hb. }
  apply traverse_length in Hvals.
  destruct rest as [| second rest'].
  - destruct vals as [| v1 [| v2 vs]]; try discriminate.
    unfold squeeze in H. destruct (length first) as [| [| n]]; discriminate.
  - destruct vals as [| v1 [| v2 vs]]; try discriminate.
    unfold squeeze in H.
    destruct (length first) as [| [| n]] eqn:Hk; try discriminate;
      injection H as <- _;
      (split; [split; [simpl; lia | split; [constructor; assumption | exact Hnum]] | lia]).
Qed.

Lemma column_numeric (j k : nat) (rows : list (list str)) :
  (j < k)%nat ->
  column (Array2 k (map (map (fun t => float32 (numpy_value t))) rows)) j
  = Ok (viewed_column j rows).
Proof.
  intros Hj. unfold column, viewed_column.
  apply Nat.ltb_lt in Hj. rewrite Hj. rewrite map_map. do 2 f_equal.
  apply map_ext. intros r.
  change nan with ((fun t => float32 (numpy_value t)) []).
  apply (map_nth (fun t => float32 (numpy_value t))).
Qed.

(** X7: the viewer reaches the plot exactly when the lines after the
    header, blank lines and comments apart, form a table of at least
    two rows with the same number of fields, three or more, every
    field a float literal; the plotted columns are then the first
    three columns, narrowed to [float32], and any further columns
    (such as colours) are not used. *)
Theorem X7_viewer_succeeds_iff (lines : list str) :
  ((exists sc, plot_lines lines = Ok sc)
   <-> (exists k, (3 <= k)%nat /\ numeric_table k (field_rows (ply_body lines))))
  /\ (forall sc,
         plot_lines lines = Ok sc ->
         sc = Scatter (viewed_column 0 (field_rows (ply_body lines)))
                      (viewed_column 1 (field_rows (ply_body lines)))
                      (viewed_column 2 (field_rows (ply_body lines)))
                      (viewed_column 2 (field_rows (ply_body lines)))).
Proof.
  assert (Hfwd : forall k, (3 <= k)%nat ->
                   numeric_table k (field_rows (ply_body lines)) ->
                   plot_lines lines
                   = Ok (Scatter (viewed_column 0 (field_rows (ply_body lines)))
                                 (viewed_column 1 (field_rows (ply_body lines)))
                                 (viewed_column 2 (field_rows (ply_body lines)))
                                 (viewed_column 2 (field_rows (ply_body lines))))).
  { intros k Hk Ht. unfold plot_lines. cbv zeta. fold (ply_body lines).
    rewrite (loadtxt_numeric_table _ k Ht) by lia. cbn [bind].
    rewrite !column_numeric by lia. reflexivity. }
  assert (Hbwd : forall sc, plot_lines lines = Ok sc ->
                   exists k, (3 <= k)%nat
                             /\ numeric_table k (field_rows (ply_body lines))).
  { intros sc H. unfold plot_lines in H. cbv zeta in H. fold (ply_body lines) in H.
    bind_inv H arr Harr. bind_inv H x Hx. bind_inv H y Hy. bind_inv H z Hz.
    destruct arr as [? | ? | k rows]; try discriminate.
    apply loadtxt_Array2 in Harr as [Ht _]. exists k. split; [| exact Ht].
    unfold column in Hz. destruct (Nat.ltb_spec 2 k); [lia | discriminate]. }
  split; [split |].
  - intros [sc H]. eapply Hbwd, H.
  - intros (k & Hk & Ht). eexists. apply (Hfwd k Hk Ht).
  - intros sc H. destruct (Hbwd sc H) as (k & Hk & Ht).
    rewrite (Hfwd k Hk Ht) in H. injection H as <-. reflexivity.
Qed.

(** ** The viewer on a trajectory file *)

Lemma point_row_words (p : float * float * float) :
  words (before_comment (with_NL (point_row p)))
  = [fmt_f p.1.1; fmt_f p.1.2; fmt_f p.2; lit "144"; lit "238"; lit "144"].
Proof.
  destruct p as [[a b] c]. unfold point_row, trajectory_row. cbn [fst snd].
  rewrite before_comment_id.
  - unfold with_NL. rewrite <- !app_assoc. cbn [lit list_ascii_of_string app].
    rewrite !words_cons;
      first [ reflexivity | apply fmt_f_nonempty | apply fmt_f_no_space
            | discriminate | repeat constructor ].
  - unfold with_NL.
    repeat (apply Forall_app; split);
      first [apply fmt_f_no_hash | repeat constructor].
Qed.

Lemma to_float32_colour :
  to_float32 (lit "144") = Ok (float32 (float_of_Z 144))
  /\ to_float32 (lit "238") = Ok (float32 (float_of_Z 238)).
Proof. split; vm_compute; reflexivity. Qed.

(** The viewer's parse of a coloured PLY text of two or more rows. *)
Lemma plot_trajectory_lines (n : nat) (pts : list (float * float * float)) :
  (2 <= length pts)%nat ->
  plot_lines (map with_NL (trajectory_head n ++ map point_row pts))
  = Ok (Scatter (Array1 (map (fun p => viewed p.1.1) pts))
                (Array1 (map (fun p => viewed p.1.2) pts))
                (Array1 (map (fun p => viewed p.2) pts))
                (Array1 (map (fun p => viewed p.2) pts))).
Proof.
  intros Hn. unfold plot_lines. cbv zeta.
  change (drop (find_header_end ?l 0) ?l) with (ply_body l).
  rewrite trajectory_lines_body.
  rewrite (loadtxt_table _
             (map (fun p : float * float * float =>
                     [fmt_f p.1.1; fmt_f p.1.2; fmt_f p.2;
                      lit "144"; lit "238"; lit "144"]) pts)
             (map (fun p : float * float * float =>
                     [viewed p.1.1; viewed p.1.2; viewed p.2;
                      float32 (float_of_Z 144); float32 (float_of_Z 238);
                      float32 (float_of_Z 144)]) pts)
             6).
  - cbn [bind column Nat.ltb Nat.leb]. rewrite !map_map. reflexivity.
  - rewrite !map_map. apply map_ext. intros p. apply point_row_words.
  - apply Forall_map_all. intros p. discriminate.
  - apply Forall_map_all. intros p. reflexivity.
  - apply traverse_images. intros p. cbn [traverse].
    rewrite !to_float32_fmt_f.
    destruct to_float32_colour as [-> ->]. reflexivity.
  - rewrite length_map. exact Hn.
  - discriminate.
Qed.

Lemma trajectory_ply_rows (content out : str) :
  trajectory_ply content = Ok out ->
  out = unlines (trajectory_head (length (readlines content))
                   ++ map point_row (map pose_point (readlines content))).
Proof.
  intros H. apply trajectory_ply_inv in H as (x & y & z & Hloop & Hlen & ->).
  pose proof (trajectory_loop_Ok_good _ _ _ _ _ Hloop) as Hgood.
  rewrite (trajectory_loop_good _ [] [] [] Hgood) in Hloop.
  injection Hloop as <- <- <-. cbn [app].
  rewrite (points_map (A:=str) _ _ _ []) by reflexivity.
  rewrite length_map. reflexivity.
Qed.

(** X8: the viewer reads back what the trajectory converter wrote for
    two or more poses: it recovers one point per input line, in order,
    each coordinate the [float32] rounding of the number printed for
    the line's field 4, 8 or 12, and does not use the colour
    columns. *)
Theorem X8_viewer_reads_trajectory (content out : str) :
  trajectory_ply content = Ok out ->
  (2 <= length (readlines content))%nat ->
  plot_text out
  = Ok (Scatter
          (Array1 (map (fun line => viewed (pose_point line).1.1) (readlines content)))
          (Array1 (map (fun line => viewed (pose_point line).1.2) (readlines content)))
          (Array1 (map (fun line => viewed (pose_point line).2) (readlines content)))
          (Array1 (map (fun line => viewed (pose_point line).2) (readlines content)))).
Proof.
  intros H Hn. apply trajectory_ply_rows in H as ->.
  unfold plot_text. rewrite trajectory_output_lines.
  rewrite plot_trajectory_lines by (rewrite length_map; exact Hn).
  rewrite !map_map. reflexivity.
Qed.

Lemma X8_viewer_reads_trajectory_witness :
  plot_text two_pose_ply
  = Ok (Scatter
          (Array1 (map (fun line => viewed (pose_point line).1.1) (readlines two_pose_text)))
          (Array1 (map (fun line => viewed (pose_point line).1.2) (readlines two_pose_text)))
          (Array1 (map (fun line => viewed (pose_point line).2) (readlines two_pose_text)))
          (Array1 (map (fun line => viewed (pose_point line).2) (readlines two_pose_text)))).
Proof.
  apply (X8_viewer_reads_trajectory two_pose_text two_pose_ply).
  - vm_compute. reflexivity.
  - vm_compute. lia.
Defined.

(** X9: a trajectory file the converter wrote for a single pose, or
    for none, cannot be viewed: [loadtxt] returns a one-dimensional
    array and [points[:, 0]] raises [IndexError]. *)
Theorem X9_viewer_rejects_short_trajectory (content out : str) :
  trajectory_ply content = Ok out ->
  (length (readlines content) < 2)%nat ->
  plot_text out = Raise IndexError.
Proof.
  intros H Hn. apply trajectory_ply_rows in H as ->.
  unfold plot_text. rewrite trajectory_output_lines.
  unfold plot_lines. cbv zeta.
  change (drop (find_header_end ?l 0) ?l) with (ply_body l).
  rewrite trajectory_lines_body.
  destruct (readlines content) as [| l [| l' rest]]; simpl in Hn; try lia.
  - reflexivity.
  - cbn [map].
    destruct (loadtxt_single_row (with_NL (point_row (pose_point l))))
      as (arr & Harr & _ & Hcol).
    { unfold vertex_text. rewrite point_row_words. split; [discriminate |].
      repeat (constructor;
              [first [ eexists; apply numpy_float_fmt_f
                     | eexists; vm_compute; reflexivity ] |]).
      constructor. }
    rewrite Harr. cbn [bind]. rewrite Hcol. reflexivity.
Qed.

Lemma X9_viewer_rejects_short_trajectory_witness :
  plot_text one_pose_ply = Raise IndexError.
Proof.
  apply (X9_viewer_rejects_short_trajectory one_pose_text one_pose_ply).
  - vm_compute. reflexivity.
  - vm_compute. lia.
Defined.

(** ** The script *)

(** X10: in the script, the viewing step cannot fail once the
    conversion has succeeded (a written map has at least two points):
    the script then ends with the converted file in place and plots
    one point per data row of the map file, each coordinate the
    [float32] rounding of the number printed for the row's first,
    second or third field. *)
Theorem X10_script_views_converted_map (fs fs1 : filesystem) :
  save_pointcloud_from_ORB_SLAM fs input_file output_file = Ok fs1 ->
  exists content,
    fs !! input_file = Some content
    /\ main fs
       = Ok (fs1,
             Scatter
               (Array1 (map (fun fields => viewed (loose_float (nth 0 fields [])))
                            (data_rows content (lit ", ") 1)))
               (Array1 (map (fun fields => viewed (loose_float (nth 1 fields [])))
                            (data_rows content (lit ", ") 1)))
               (Array1 (map (fun fields => viewed (loose_float (nth 2 fields [])))
                            (data_rows content (lit ", ") 1)))
               (Array1 (map (fun fields => viewed (loose_float (nth 2 fields [])))
                            (data_rows content (lit ", ") 1)))).
Proof.
  intros H. unfold main. rewrite H. cbn [bind].
  apply save_pointcloud_writes in H as (content & bytes & Hin & Hb & ->).
  exists content. split; [exact Hin |].
  unfold plot_3d_point_cloud, read_text. rewrite lookup_insert_eq. cbn [bind].
  apply pointcloud_ply_inv in Hb as (k & rows & Hg & Hk & ->).
  apply genfromtxt_2d in Hg as (Hn & _ & -> & _).
  unfold plot_text. rewrite pointcloud_output_lines.
  rewrite (plot_pointcloud_lines _ _ Hn). cbn [bind].
  rewrite !map_map. do 2 f_equal.
  assert (E : forall j fields,
             viewed (nth j (map loose_float fields) nan)
             = viewed (loose_float (nth j fields []))).
  { intros j fields. change nan with (loose_float []).
    rewrite map_nth. reflexivity. }
  f_equal; f_equal; apply map_ext; intros fields; apply E.
Qed.

Lemma X10_script_views_converted_map_witness :
  exists content,
    script_files !! input_file = Some content
    /\ main script_files
       = Ok (<[ output_file := two_point_ply ]> script_files,
             Scatter
               (Array1 (map (fun fields => viewed (loose_float (nth 0 fields [])))
                            (data_rows content (lit ", ") 1)))
               (Array1 (map (fun fields => viewed (loose_float (nth 1 fields [])))
                            (data_rows content (lit ", ") 1)))
               (Array1 (map (fun fields => viewed (loose_float (nth 2 fields [])))
                            (data_rows content (lit ", ") 1)))
               (Array1 (map (fun fields => viewed (loose_float (nth 2 fields [])))
                            (data_rows content (lit ", ") 1)))).
Proof.
  apply (X10_script_views_converted_map script_files
           (<[ output_file := two_point_ply ]> script_files)).
  vm_compute. reflexivity.
Defined.

(** ** The exceptions raised *)

Lemma trajectory_loop_raises (lines : list str) (x y z : list float) (e : exn) :
  trajectory_loop lines x y z = Raise e -> e = IndexError \/ e = ValueError.
Proof.
  revert x y z. induction lines as [| l rest IH]; intros x y z; [discriminate |].
  cbn [trajectory_loop]. cbv zeta.
  set (cols := split (lit " ") (strip l)).
  destruct (index cols 4) as [c4 | e4] eqn:E4;
    [| intros [= <-]; left; eapply index_raises, E4]. cbn [bind].
  destruct (python_float c4) as [tx | f4] eqn:F4;
    [| intros [= <-]; right; eapply python_float_raises, F4]. cbn [bind].
  destruct (index cols 8) as [c8 | e8] eqn:E8;
    [| intros [= <-]; left; eapply index_raises, E8]. cbn [bind].
  destruct (python_float c8) as [ty | f8] eqn:F8;
    [| intros [= <-]; right; eapply python_float_raises, F8]. cbn [bind].
  destruct (index cols 12) as [c12 | e12] eqn:E12;
    [| intros [= <-]; left; eapply index_raises, E12]. cbn [bind].
  destruct (python_float c12) as [tz | f12] eqn:F12;
    [| intros [= <-]; right; eapply python_float_raises, F12]. cbn [bind].
  apply IH.
Qed.

Lemma loadtxt_raises (lines : list str) (e : exn) :
  loadtxt lines = Raise e -> e = ValueError.
Proof.
  unfold loadtxt. destruct (field_rows lines) as [| first rest]; [discriminate |].
  cbv zeta.
  destruct (traverse (traverse to_float32) (first :: rest)) as [vals | e'] eqn:E.
  - cbn [bind]. destruct (same_length (length first) rest); [discriminate | congruence].
  - cbn [bind]. intros [= <-].
    apply traverse_Raise in E as (row & _ & E).
    apply traverse_Raise in E as (tok & _ & E).
    eapply to_float32_raises, E.
Qed.

Lemma column_raises (a : ndarray) (j : nat) (e : exn) :
  column a j = Raise e -> e = IndexError.
Proof.
  unfold column. destruct a as [? | ? | k rows]; try congruence.
  destruct (j <? k)%nat; [discriminate | congruence].
Qed.

(** X11: parsing is the only step that fails.  Each of the two
    converters and the viewer either succeeds or raises [IndexError]
    or [ValueError]; formatting the header (with [x.shape[0]] or with
    [x.shape]), stacking the columns and formatting the rows (with
    [%f] and [%d]) never raise. *)
Theorem X11_only_index_and_value_errors :
  (forall content,
      (exists out, pointcloud_ply content = Ok out)
      \/ parse_failure (pointcloud_ply content))
  /\ (forall content,
         (exists out, trajectory_ply content = Ok out)
         \/ parse_failure (trajectory_ply content))
  /\ (forall lines,
         (exists sc, plot_lines lines = Ok sc)
         \/ parse_failure (plot_lines lines)).
Proof.
  unfold parse_failure. repeat split.
  - intros content.
    destruct (genfromtxt content (lit ", ") 1) as [[x | x | k rows] | e] eqn:Hg.
    + right. left. unfold pointcloud_ply. rewrite Hg. reflexivity.
    + right. left. unfold pointcloud_ply. rewrite Hg. reflexivity.
    + destruct (le_lt_dec 3 k) as [Hk | Hk].
      * left. eexists. apply (pointcloud_ply_array _ _ _ Hg Hk).
      * right. left. unfold pointcloud_ply. rewrite Hg.
        destruct k as [| [| [| k]]]; [reflexivity .. | lia].
    + right. right. unfold pointcloud_ply. rewrite Hg.
      apply genfromtxt_raises in Hg as ->. reflexivity.
  - intros content.
    destruct (trajectory_loop (readlines content) [] [] []) as [[[x y] z] | e] eqn:Hl.
    + left. eexists. apply (trajectory_ply_points _ _ _ _ Hl).
    + right. unfold trajectory_ply. rewrite Hl.
      destruct (trajectory_loop_raises _ _ _ _ _ Hl) as [-> | ->];
        [left | right]; reflexivity.
  - intros lines. unfold plot_lines. cbv zeta.
    destruct (loadtxt (drop (find_header_end lines 0) lines)) as [arr | e] eqn:Hp.
    + cbn [bind].
      destruct (column arr 0) as [x | e] eqn:H0;
        [| right; left; apply column_raises in H0 as ->; reflexivity].
      cbn [bind].
      destruct (column arr 1) as [y | e] eqn:H1;
        [| right; left; apply column_raises in H1 as ->; reflexivity].
      cbn [bind].
      destruct (column arr 2) as [z | e] eqn:H2;
        [| right; left; apply column_raises in H2 as ->; reflexivity].
      left. eexists. reflexivity.
    + right. right. apply loadtxt_raises in Hp as ->. reflexivity.
Qed.

(** ** Blank lines in a trajectory file *)

(** The loop on a sequence of lines continues from the lists the loop
    on its first part built. *)
Lemma trajectory_loop_app (l1 l2 : list str) (x y z : list float) :
  trajectory_loop (l1 ++ l2) x y z
  = (do r <- trajectory_loop l1 x y z; trajectory_loop l2 r.1.1 r.1.2 r.2).
Proof.
  revert x y z. induction l1 as [| l rest IH]; intros x y z; [reflexivity |].
  cbn [app trajectory_loop]. cbv zeta.
  destruct (index (split (lit " ") (strip l)) 4) as [c4 |]; [| reflexivity].
  cbn [bind]. destruct (python_float c4) as [tx |]; [| reflexivity].
  cbn [bind].
  destruct (index (split (lit " ") (strip l)) 8) as [c8 |]; [| reflexivity].
  cbn [bind]. destruct (python_float c8) as [ty |]; [| reflexivity].
  cbn [bind].
  destruct (index (split (lit " ") (strip l)) 12) as [c12 |]; [| reflexivity].
  cbn [bind]. destruct (python_float c12) as [tz |]; [| reflexivity].
  cbn [bind]. apply IH.
Qed.

(** X12: the trajectory converter does not skip blank lines: when the
    lines before it can be processed, a line of whitespace only (such
    as an empty last line) makes the converter raise [IndexError],
    whatever follows. *)
Theorem X12_blank_pose_line_raises (content : str) (before : list str)
        (blank : str) (after : list str) :
  readlines content = before ++ blank :: after ->
  Forall good_pose_line before ->
  Forall (fun c => is_space c = true) blank ->
  trajectory_ply content = Raise IndexError.
Proof.
  intros Hlines Hgood Hblank. unfold trajectory_ply.
  rewrite Hlines, trajectory_loop_app, (trajectory_loop_good _ _ _ _ Hgood).
  cbn [bind trajectory_loop]. cbv zeta.
  assert (Hstrip : strip blank = []).
  { unfold strip. apply (strip_by_trailing is_space [] blank); auto. }
  rewrite Hstrip. reflexivity.
Qed.

Lemma X12_blank_pose_line_raises_witness :
  trajectory_ply (text_lines [ "a.png 1 0 0 10 0 1 0 20 0 0 1 30"; ""; "" ]%string)
  = Raise IndexError.
Proof.
  apply (X12_blank_pose_line_raises _
           [with_NL (lit "a.png 1 0 0 10 0 1 0 20 0 0 1 30")] [NL] []).
  - vm_compute. reflexivity.
  - constructor; [| constructor].
    exists (lit "10"), (lit "20"), (lit "30"),
      (float_of_Z 10), (float_of_Z 20), (float_of_Z 30).
    repeat split; vm_compute; reflexivity.
  - repeat constructor.
Defined.

(** ** Instances of the characterisations *)


Lemma X4_trajectory_succeeds_iff_witness :
  Forall good_pose_line (readlines two_pose_text).
Proof.
  apply (proj1 (X4_trajectory_succeeds_iff two_pose_text)).
  exists two_pose_ply. vm_compute. reflexivity.
Defined.

Lemma X7_viewer_succeeds_iff_witness :
  exists k, (3 <= k)%nat
            /\ numeric_table k (field_rows (ply_body (readlines two_pose_ply))).
Proof.
  apply (proj1 (proj1 (X7_viewer_succeeds_iff (readlines two_pose_ply)))).
  eexists. vm_compute. reflexivity.
Defined.
